(** * Exemplar: flashcard export and search aggregation

    A shallow embedding of two parts of the Exemplar desktop application:

    - [AnkiService] (src/main/services/anki.ts): the client of the local
      AnkiConnect bridge, with its deck-ensure step, the card formatter and
      the sequential batch submission [addCards];
    - the [App] component's handlers [handleSearch] and [handlePageChange]
      (renderer), as transition functions on the component state.

    Network calls are the only effects.  The bridge and the preload API are
    modelled as deterministic state machines of an arbitrary state type, the
    calls are recorded in a trace, and JavaScript exceptions are explicit
    results, so that [try]/[catch] is an ordinary combinator.
    [console.error] output is not modelled. *)

From Stdlib Require Import Bool Ascii String List ZArith Lia.
Import ListNotations.

Set Warnings "-register-all".
Local Open Scope string_scope.
Local Open Scope Z_scope.

(* ================================================================== *)
(** ** JavaScript values and string helpers *)

Module Js.

(** A JSON value, as [response.json()] produces it ([any] in the source). *)
Inductive JVal : Type :=
| JNull
| JBool (b : bool)
| JNum (n : Z)
| JStr (s : string)
| JArr (items : list JVal)
| JObj (fields : list (string * JVal)).

(** The double quote and the line feed, which the string notation cannot
    hold conveniently. *)
Definition dq : string := String "034" EmptyString.
Definition nl : string := String "010" EmptyString.

(** Truthiness of a string: the empty string is falsy. *)
Definition truthy_str (s : string) : bool :=
  match s with
  | EmptyString => false
  | String _ _ => true
  end.

(** Truthiness of an optional string ([string | null | undefined]). *)
Definition truthy_opt (o : option string) : bool :=
  match o with
  | Some s => truthy_str s
  | None => false
  end.

(** Truthiness of a JSON value. *)
Definition truthy (v : JVal) : bool :=
  match v with
  | JNull => false
  | JBool b => b
  | JNum n => negb (n =? 0)
  | JStr s => truthy_str s
  | JArr _ => true
  | JObj _ => true
  end.

(** [String.prototype.includes]: [needle] occurs somewhere in [hay]. *)
Fixpoint str_includes (needle hay : string) : bool :=
  String.prefix needle hay ||
  match hay with
  | EmptyString => false
  | String _ rest => str_includes needle rest
  end.

(** Strict equality of a JSON value with a string. *)
Definition strict_eq_str (v : JVal) (s : string) : bool :=
  match v with
  | JStr t => String.eqb t s
  | _ => false
  end.

(** [String.prototype.toLowerCase] on the ASCII letters; bytes outside
    [A]-[Z] are left as they are (strings are byte strings here). *)
Definition lower_ascii (c : ascii) : ascii :=
  let n := nat_of_ascii c in
  if (65 <=? n)%nat && (n <=? 90)%nat then ascii_of_nat (n + 32) else c.

Fixpoint toLowerCase (s : string) : string :=
  match s with
  | EmptyString => EmptyString
  | String c rest => String (lower_ascii c) (toLowerCase rest)
  end.

(** White space as [String.prototype.trim] sees it, restricted to ASCII:
    tab, line feed, vertical tab, form feed, carriage return and space. *)
Definition isWhiteSpace (c : ascii) : bool :=
  let n := nat_of_ascii c in
  ((9 <=? n)%nat && (n <=? 13)%nat) || (n =? 32)%nat.

Fixpoint trimStart (s : string) : string :=
  match s with
  | EmptyString => EmptyString
  | String c rest => if isWhiteSpace c then trimStart rest else s
  end.

(** [trimEnd s] drops the trailing white space: a character is kept when it
    is not white space or when something is kept after it. *)
Fixpoint trimEnd (s : string) : string :=
  match s with
  | EmptyString => EmptyString
  | String c rest =>
      match trimEnd rest with
      | EmptyString => if isWhiteSpace c then EmptyString else String c EmptyString
      | kept => String c kept
      end
  end.

Definition trim (s : string) : string := trimEnd (trimStart s).

(** Every character of [s] is white space (the empty string included). *)
Fixpoint isBlank (s : string) : bool :=
  match s with
  | EmptyString => true
  | String c rest => isWhiteSpace c && isBlank rest
  end.

(** [dropPrefix p s] is the rest of [s] after the prefix [p], if [s]
    starts with [p]. *)
Fixpoint dropPrefix (p s : string) : option string :=
  match p with
  | EmptyString => Some s
  | String a p' =>
      match s with
      | EmptyString => None
      | String b s' => if Ascii.eqb a b then dropPrefix p' s' else None
      end
  end.

(** The longest prefix of [s] without [stop], and what follows it. *)
Fixpoint spanUntil (stop : ascii) (s : string) : string * string :=
  match s with
  | EmptyString => (EmptyString, EmptyString)
  | String c rest =>
      if Ascii.eqb c stop then (EmptyString, s)
      else let (taken, left) := spanUntil stop rest in (String c taken, left)
  end.

(** [s.replace(/^data:audio\/[^;]+;base64,/, ...)] with the empty string
    as replacement: the class [[^;]+] can only end at the first semicolon,
    so the match is unique when there is one. *)
Definition stripAudioDataUrl (s : string) : string :=
  match dropPrefix "data:audio/" s with
  | None => s
  | Some rest =>
      let (mime, tail) := spanUntil ";" rest in
      match mime with
      | EmptyString => s
      | String _ _ =>
          match dropPrefix ";base64," tail with
          | Some data => data
          | None => s
          end
      end
  end.

(** The character [c] does not occur in [s]. *)
Fixpoint lacks (c : ascii) (s : string) : bool :=
  match s with
  | EmptyString => true
  | String a rest => negb (Ascii.eqb a c) && lacks c rest
  end.

End Js.

(* ================================================================== *)
(** ** Shared types ([@shared/types]) *)

Module Shared.

(** Modelled from the spec: the declarations of [@shared/types] are not
    part of the sources at hand.  An example phrase is
    [{ text, translation, category }]. *)
Record ExamplePhrase : Type := {
  text : string;
  translation : string;
  category : string
}.

(** Modelled from the spec: an image result is an opaque record with at
    least a thumbnail reference; [thumbnail] is the only field the code
    reads. *)
Record ImageResult : Type := {
  thumbnail : string
}.

(** Modelled from the spec: [{ images, currentPage, totalPages, hasNext,
    hasPrevious }], replaced on every page change. *)
Module PaginatedImageResult.
Record t : Type := {
  images : list ImageResult;
  currentPage : Z;
  totalPages : Z;
  hasNext : bool;
  hasPrevious : bool
}.
End PaginatedImageResult.

(** Modelled from the spec: [{ word, images, phrases }], the merged view of
    one search. *)
Module SearchResult.
Record t : Type := {
  word : string;
  images : list ImageResult;
  phrases : list ExamplePhrase
}.
End SearchResult.

(** The options of an image lookup, [{ page, perPage }]. *)
Record PaginationOptions : Type := {
  page : Z;
  perPage : Z
}.

(** Modelled from the spec: of the settings only [anki.enabled] is named. *)
Record AppSettings : Type := {
  anki_enabled : bool
}.

End Shared.

(* ================================================================== *)
(** ** The AnkiConnect client (src/main/services/anki.ts) *)

Module AnkiService.
Import Js Shared.

Record AnkiCard : Type := {
  word : string;
  explanation : string;
  phrase : ExamplePhrase;
  image : option ImageResult;
  audioUrl : option string
}.

Record AnkiConnectRequest : Type := {
  action : string;
  version : Z;
  params : option JVal
}.

Record AnkiConnectResponse : Type := {
  result : JVal;
  error : option string
}.

(** What [fetch] resolves to: the [ok] flag, the status and the parsed
    body ([None] when [response.json()] rejects). *)
Record HttpResponse : Type := {
  ok : bool;
  status : Z;
  json : option AnkiConnectResponse
}.

(** One round trip on the wire: the request and what [fetch] did with it
    ([None] when the [fetch] promise rejects, e.g. connection refused). *)
Definition Exchange : Type := (AnkiConnectRequest * option HttpResponse)%type.

(** The exceptions the client can meet. *)
Inductive Exn : Type :=
| FetchFailed
| HttpError (status : Z)
| JsonError
| TypeError
| Error (message : string).

Inductive Res (A : Type) : Type :=
| Ok (a : A)
| Throw (e : Exn).
Arguments Ok {A} a.
Arguments Throw {A} e.

(** The outcome of [addCards]. *)
Record Tally : Type := {
  success : Z;
  failed : Z
}.

Definition ANKI_CONNECT_URL : string := "http://127.0.0.1:8765".
Definition API_VERSION : Z := 6.
Definition DEFAULT_DECK : string := "Exemplar::Vocabulary".

(** *** The card formatter *)

Definition imageHtml (card : AnkiCard) : string :=
  match image card with
  | Some img =>
      let thumbnail := thumbnail img in
      let word := word card in
  "<img src=" ++ dq ++ thumbnail ++ dq ++ " alt=" ++ dq ++ word ++ dq ++ " style=" ++ dq ++ "max-width: 300px; height: auto; border-radius: 8px; margin-bottom: 16px;" ++ dq ++ ">"
  | None => ""
  end.

Definition audioHtml (card : AnkiCard) : string :=
  if truthy_opt (audioUrl card) then
    let audioUrl := match audioUrl card with Some u => u | None => "" end in
  "<audio controls style=" ++ dq ++ "width: 100%; margin-top: 16px;" ++ dq ++ "><source src=" ++ dq ++ audioUrl ++ dq ++ " type=" ++ dq ++ "audio/mpeg" ++ dq ++ ">Your browser does not support the audio element.</audio>"
  else "".

Definition explanationHtml (card : AnkiCard) : string :=
  if truthy_str (explanation card) then
    let explanation := explanation card in
  "<div style=" ++ dq ++ "background: #f8fafc; border-left: 4px solid #3b82f6; padding: 16px; margin: 16px 0; border-radius: 4px;" ++ dq ++ ">" ++ nl ++
  "                 <h3 style=" ++ dq ++ "margin: 0 0 8px 0; color: #1e40af;" ++ dq ++ ">Explanation</h3>" ++ nl ++
  "                 <p style=" ++ dq ++ "margin: 0; color: #374151;" ++ dq ++ ">" ++ explanation ++ "</p>" ++ nl ++
  "               </div>"
  else "".

Definition front (card : AnkiCard) : string :=
  let imageHtml := imageHtml card in
  let word := word card in
  nl ++
  "      <div style=" ++ dq ++ "text-align: center; font-family: system-ui, -apple-system, sans-serif;" ++ dq ++ ">" ++ nl ++
  "        " ++ imageHtml ++ nl ++
  "        <h2 style=" ++ dq ++ "color: #2563eb; margin: 16px 0; font-size: 2rem; font-weight: bold;" ++ dq ++ ">" ++ word ++ "</h2>" ++ nl ++
  "      </div>" ++ nl ++
  "    ".

Definition back (card : AnkiCard) : string :=
  let imageHtml := imageHtml card in
  let audioHtml := audioHtml card in
  let word := word card in
  let text := text (phrase card) in
  let translation := translation (phrase card) in
  let category := category (phrase card) in
  nl ++
  "      <div style=" ++ dq ++ "font-family: system-ui, -apple-system, sans-serif; line-height: 1.6;" ++ dq ++ ">" ++ nl ++
  "        " ++ imageHtml ++ nl ++
  "        <h2 style=" ++ dq ++ "color: #2563eb; margin: 16px 0 24px 0; font-size: 2rem; font-weight: bold;" ++ dq ++ ">" ++ word ++ "</h2>" ++ nl ++
  "        " ++ nl ++
  "        " ++ explanationHtml card ++
  nl ++
  "        " ++ nl ++
  "        <div style=" ++ dq ++ "background: #f0f9ff; border-left: 4px solid #0ea5e9; padding: 16px; margin: 16px 0; border-radius: 4px;" ++ dq ++ ">" ++ nl ++
  "          <h3 style=" ++ dq ++ "margin: 0 0 8px 0; color: #0369a1;" ++ dq ++ ">Example Phrase</h3>" ++ nl ++
  "          <p style=" ++ dq ++ "margin: 0 0 8px 0; font-weight: 500; color: #1e293b;" ++ dq ++ ">" ++ text ++ "</p>" ++ nl ++
  "          <p style=" ++ dq ++ "margin: 0; font-style: italic; color: #64748b;" ++ dq ++ ">" ++ translation ++ "</p>" ++ nl ++
  "          <span style=" ++ dq ++ "display: inline-block; background: #dbeafe; color: #1e40af; padding: 4px 8px; border-radius: 12px; font-size: 0.75rem; margin-top: 8px;" ++ dq ++ ">" ++ category ++ "</span>" ++ nl ++
  "        </div>" ++ nl ++
  "        " ++ nl ++
  "        " ++ audioHtml ++ nl ++
  "      </div>" ++ nl ++
  "    ".

(** [formatCard] returns [{ front, back }]. *)
Definition formatCard (card : AnkiCard) : string * string :=
  (front card, back card).

(** *** Effects: the bridge, the trace and exceptions *)

(** A computation starts in a state of the bridge and yields the state it
    leaves the bridge in, the exchanges it made, in order, and a value or
    an exception. *)
Definition M (W A : Type) : Type := W -> W * list Exchange * Res A.

Definition ret {W A : Type} (a : A) : M W A :=
  fun w => (w, [], Ok a).

Definition throw {W A : Type} (e : Exn) : M W A :=
  fun w => (w, [], Throw e).

Definition bind {W A B : Type} (m : M W A) (k : A -> M W B) : M W B :=
  fun w =>
    match m w with
    | (w1, t1, Ok a) => let '(w2, t2, r) := k a w1 in (w2, (t1 ++ t2)%list, r)
    | (w1, t1, Throw e) => (w1, t1, Throw e)
    end.

(** [try { body } catch (error) { handler }] *)
Definition try_catch {W A : Type} (body : M W A) (handler : Exn -> M W A) : M W A :=
  fun w =>
    match body w with
    | (w1, t1, Ok a) => (w1, t1, Ok a)
    | (w1, t1, Throw e) =>
        let '(w2, t2, r) := handler e w1 in (w2, (t1 ++ t2)%list, r)
    end.

Notation "x <- m ;; k" := (bind m (fun x => k))
  (at level 61, m at next level, right associativity).
Notation "m ;; k" := (bind m (fun _ => k))
  (at level 61, right associativity).

(** [if (c) { m }] *)
Definition when {W : Type} (c : bool) (m : M W unit) : M W unit :=
  if c then m else ret tt.

(** The requests the client builds. *)
Definition deckNamesRequest : AnkiConnectRequest :=
  {| action := "deckNames"; version := API_VERSION; params := None |}.

Definition createDeckRequest (deckName : string) : AnkiConnectRequest :=
  {| action := "createDeck";
     version := API_VERSION;
     params := Some (JObj [("deck", JStr deckName)]) |}.

Definition addNoteRequest (card : AnkiCard) (deckName : string) : AnkiConnectRequest :=
  let cardData := formatCard card in
  {| action := "addNote";
     version := API_VERSION;
     params := Some (JObj
       [("note", JObj
          [("deckName", JStr deckName);
           ("modelName", JStr "Basic");
           ("fields", JObj [("Front", JStr (fst cardData));
                            ("Back", JStr (snd cardData))]);
           ("tags", JArr [JStr "exemplar"; JStr "vocabulary";
                          JStr (toLowerCase (word card))])])]) |}.

Definition storeMediaFileRequest (audioUrl filename : string) : AnkiConnectRequest :=
  {| action := "storeMediaFile";
     version := API_VERSION;
     params := Some (JObj
       [("filename", JStr (filename ++ "_audio.mp3"));
        ("data", JStr (stripAudioDataUrl audioUrl))]) |}.

(** [deckNames.includes(deckName)] on whatever the bridge returned as
    result: an array is searched, a string is searched for a substring, and
    on anything else the call is a [TypeError]. *)
Definition includesValue (v : JVal) (s : string) : option bool :=
  match v with
  | JArr items => Some (existsb (fun x => strict_eq_str x s) items)
  | JStr t => Some (str_includes s t)
  | _ => None
  end.

Definition includes {W : Type} (v : JVal) (s : string) : M W bool :=
  match includesValue v s with
  | Some b => ret b
  | None => throw TypeError
  end.

(** What [sendRequest] makes of the outcome of [fetch]: it rethrows a
    rejection, throws on a status that is not [ok], and otherwise returns
    the parsed body. *)
Definition received (reply : option HttpResponse) : Res AnkiConnectResponse :=
  match reply with
  | None => Throw FetchFailed
  | Some response =>
      if negb (ok response) then Throw (HttpError (status response))
      else match json response with
           | Some body => Ok body
           | None => Throw JsonError
           end
  end.

Section Client.

Context {W : Type}.

(** The transport: what the bridge at [ANKI_CONNECT_URL] answers to a
    request in a given state, and the state it moves to. *)
Variable fetch : W -> AnkiConnectRequest -> W * option HttpResponse.

Definition sendRequest (request : AnkiConnectRequest) : M W AnkiConnectResponse :=
  fun w =>
    let (w', reply) := fetch w request in
    (w', [(request, reply)], received reply).

Definition getDeckNames : M W JVal :=
  try_catch
    (response <- sendRequest deckNamesRequest ;;
     ret (match error response with
          | None => result response
          | Some _ => JArr []
          end))
    (fun _ => ret (JArr [])).

Definition createDeck (deckName : string) : M W bool :=
  try_catch
    (response <- sendRequest (createDeckRequest deckName) ;;
     ret (match error response with
          | None => true
          | Some _ => false
          end))
    (fun _ => ret false).

Definition addAudioToCard (noteId : JVal) (audioUrl filename : string) : M W unit :=
  try_catch
    (sendRequest (storeMediaFileRequest audioUrl filename) ;; ret tt)
    (fun _ => ret tt).

Definition addCard (card : AnkiCard) (deckName : string) : M W bool :=
  try_catch
    (deckNames <- getDeckNames ;;
     present <- includes deckNames deckName ;;
     when (negb present)
       (created <- createDeck deckName ;;
        when (negb created)
          (throw (Error ("Failed to create deck: " ++ deckName)))) ;;
     response <- sendRequest (addNoteRequest card deckName) ;;
     when (truthy_opt (error response))
       (throw (Error (match error response with Some e => e | None => "" end))) ;;
     when (truthy_opt (audioUrl card) && truthy (result response))
       (addAudioToCard (result response)
          (match audioUrl card with Some u => u | None => "" end)
          (word card)) ;;
     ret true)
    (fun _ => ret false).

(** The loop of [addCards], with its two counters. *)
Fixpoint addCards_from (success failed : Z) (cards : list AnkiCard)
    (deckName : string) : M W Tally :=
  match cards with
  | [] => ret {| success := success; failed := failed |}
  | card :: rest =>
      result <- addCard card deckName ;;
      if (result : bool)
      then addCards_from (success + 1) failed rest deckName
      else addCards_from success (failed + 1) rest deckName
  end.

Definition addCards (cards : list AnkiCard) (deckName : string) : M W Tally :=
  addCards_from 0 0 cards deckName.

End Client.

(** *** The other queries of the client *)

Definition versionRequest : AnkiConnectRequest :=
  {| action := "version"; version := API_VERSION; params := None |}.

Definition modelNamesRequest : AnkiConnectRequest :=
  {| action := "modelNames"; version := API_VERSION; params := None |}.

Definition modelFieldNamesRequest (modelName : string) : AnkiConnectRequest :=
  {| action := "modelFieldNames";
     version := API_VERSION;
     params := Some (JObj [("modelName", JStr modelName)]) |}.

(** [v >= n] for a JSON value and a number: a number is compared, [null]
    counts as 0 and a boolean as 0 or 1; what the comparison makes of a
    string, an array or an object (their conversion to a number) is left to
    [coerced]. *)
Definition jsGe (coerced : JVal -> Z -> bool) (v : JVal) (n : Z) : bool :=
  match v with
  | JNum m => n <=? m
  | JNull => n <=? 0
  | JBool b => n <=? (if b then 1 else 0)
  | _ => coerced v n
  end.

Section Queries.

Context {W : Type}.
Variable fetch : W -> AnkiConnectRequest -> W * option HttpResponse.

(** The conversion to a number that [>=] applies to a result that is a
    string, an array or an object. *)
Variable coerced : JVal -> Z -> bool.

Definition testConnection : M W bool :=
  try_catch
    (response <- sendRequest fetch versionRequest ;;
     ret (match error response with
          | None => jsGe coerced (result response) API_VERSION
          | Some _ => false
          end))
    (fun _ => ret false).

Definition getModelNames : M W JVal :=
  try_catch
    (response <- sendRequest fetch modelNamesRequest ;;
     ret (match error response with
          | None => result response
          | Some _ => JArr []
          end))
    (fun _ => ret (JArr [])).

Definition getModelFieldNames (modelName : string) : M W JVal :=
  try_catch
    (response <- sendRequest fetch (modelFieldNamesRequest modelName) ;;
     ret (match error response with
          | None => result response
          | Some _ => JArr []
          end))
    (fun _ => ret (JArr [])).

End Queries.

(** *** Reading a trace *)

Definition stateOf {W A : Type} (o : W * list Exchange * Res A) : W := fst (fst o).
Definition traceOf {W A : Type} (o : W * list Exchange * Res A) : list Exchange :=
  snd (fst o).
Definition resultOf {W A : Type} (o : W * list Exchange * Res A) : Res A := snd o.

(** The actions of the requests of a trace, in order. *)
Definition actionsOf (t : list Exchange) : list string :=
  map (fun x => action (fst x)) t.

(** The requests [addCard] can make for a card. *)
Definition cardRequests (card : AnkiCard) (deckName : string) : list AnkiConnectRequest :=
  [deckNamesRequest; createDeckRequest deckName; addNoteRequest card deckName;
   storeMediaFileRequest (match audioUrl card with Some u => u | None => "" end)
     (word card)].

(** The requests of a trace with a given action, in order. *)
Definition requestsOf (a : string) (t : list Exchange) : list AnkiConnectRequest :=
  filter (fun rq => String.eqb (action rq) a) (map fst t).

(** The bridge accepted the request: [sendRequest] returned a response and
    its [error] is falsy. *)
Definition accepted (x : Exchange) : bool :=
  match received (snd x) with
  | Ok body => negb (truthy_opt (error body))
  | Throw _ => false
  end.

(** The [addNote] exchanges of a trace that the bridge accepted, and those
    it did not. *)
Definition notesAccepted (t : list Exchange) : list Exchange :=
  filter (fun x => String.eqb (action (fst x)) "addNote" && accepted x) t.

Definition notesRefused (t : list Exchange) : list Exchange :=
  filter (fun x => String.eqb (action (fst x)) "addNote" && negb (accepted x)) t.

(** What [getDeckNames] returns on a given outcome of its [fetch]. *)
Definition namesOf (reply : option HttpResponse) : JVal :=
  match received reply with
  | Ok response =>
      match error response with
      | None => result response
      | Some _ => JArr []
      end
  | Throw _ => JArr []
  end.

(** What [createDeck] returns on a given outcome of its [fetch]. *)
Definition createdBy (reply : option HttpResponse) : bool :=
  match received reply with
  | Ok response =>
      match error response with
      | None => true
      | Some _ => false
      end
  | Throw _ => false
  end.

(** The deck-ensure step fails in state [w]: the names the bridge serves do
    not include the deck and the [createDeck] call that follows does not
    succeed. *)
Definition ensureFails {W : Type}
    (fetch : W -> AnkiConnectRequest -> W * option HttpResponse)
    (deckName : string) (w : W) : bool :=
  let (w1, names) := fetch w deckNamesRequest in
  match includesValue (namesOf names) deckName with
  | Some false => negb (createdBy (snd (fetch w1 (createDeckRequest deckName))))
  | _ => false
  end.

(** A bridge that handles the deck as AnkiConnect does, [hasDeck] telling
    whether the deck exists in a state: [deckNames] is served without error
    and lists the deck exactly when it exists, [createDeck] succeeds and
    makes it exist, and an existing deck stays. *)
Record DeckReady {W : Type}
    (fetch : W -> AnkiConnectRequest -> W * option HttpResponse)
    (deckName : string) (hasDeck : W -> bool) : Prop := {
  names_served : forall w,
    includesValue (namesOf (snd (fetch w deckNamesRequest))) deckName
      = Some (hasDeck w) /\
    hasDeck (fst (fetch w deckNamesRequest)) = hasDeck w;
  deck_created : forall w,
    createdBy (snd (fetch w (createDeckRequest deckName))) = true /\
    hasDeck (fst (fetch w (createDeckRequest deckName))) = true;
  deck_kept : forall w rq,
    hasDeck w = true -> hasDeck (fst (fetch w rq)) = true
}.

(** The runs of [addCard] that make up an export: one per card, in order,
    each from the state the one before left the bridge in, with the
    exchanges it made and the boolean it returned. *)
Inductive CardRuns {W : Type}
    (fetch : W -> AnkiConnectRequest -> W * option HttpResponse)
    (deckName : string)
    : W -> list AnkiCard -> list (list Exchange * bool) -> W -> Prop :=
| runs_nil (w : W) : CardRuns fetch deckName w [] [] w
| runs_cons (w w1 w2 : W) (card : AnkiCard) (rest : list AnkiCard)
    (t : list Exchange) (b : bool) (runs : list (list Exchange * bool)) :
    addCard fetch card deckName w = (w1, t, Ok b) ->
    CardRuns fetch deckName w1 rest runs w2 ->
    CardRuns fetch deckName w (card :: rest) ((t, b) :: runs) w2.

(** How many runs returned [true], and how many [false]. *)
Definition succeeded (runs : list (list Exchange * bool)) : Z :=
  Z.of_nat (length (filter (fun r => snd r) runs)).

Definition failing (runs : list (list Exchange * bool)) : Z :=
  Z.of_nat (length (filter (fun r => negb (snd r)) runs)).

(** The member [key] of a JSON object. *)
Definition member (key : string) (v : JVal) : option JVal :=
  match v with
  | JObj fields =>
      match find (fun kv => String.eqb (fst kv) key) fields with
      | Some (_, x) => Some x
      | None => None
      end
  | _ => None
  end.

(** [request.params.note[key]] *)
Definition noteField (key : string) (rq : AnkiConnectRequest) : option JVal :=
  match params rq with
  | Some p =>
      match member "note" p with
      | Some note => member key note
      | None => None
      end
  | None => None
  end.

End AnkiService.

(* ================================================================== *)
(** ** A simulated bridge *)

(** A small AnkiConnect stand-in for examples: it keeps the deck names,
    answers [deckNames] with them, and lets two policies decide whether
    the n-th [createDeck] and the n-th [addNote] call succeed. *)
Module Bridge.
Import Js AnkiService.

Record State : Type := {
  decks : list string;
  creates : nat;
  notes : nat
}.

Definition respond (r : JVal) (e : option string) : option HttpResponse :=
  Some {| ok := true; status := 200;
          json := Some {| result := r; error := e |} |}.

(** The string under [key] in the parameters of a request. *)
Definition param (key : string) (rq : AnkiConnectRequest) : option string :=
  match params rq with
  | Some (JObj fields) =>
      match find (fun kv => String.eqb (fst kv) key) fields with
      | Some (_, JStr s) => Some s
      | _ => None
      end
  | _ => None
  end.

Definition hasDeck (deck : string) (b : State) : bool :=
  existsb (fun d => String.eqb d deck) (decks b).

Section Policy.

Variable createOk : nat -> bool.
Variable noteOk : nat -> bool.

Definition fetch (b : State) (rq : AnkiConnectRequest) : State * option HttpResponse :=
  if String.eqb (action rq) "deckNames" then
    (b, respond (JArr (map JStr (decks b))) None)
  else if String.eqb (action rq) "createDeck" then
    match param "deck" rq with
    | Some d =>
        if createOk (creates b) then
          ({| decks := if hasDeck d b then decks b else (decks b ++ [d])%list;
              creates := S (creates b); notes := notes b |},
           respond (JNum 1) None)
        else
          ({| decks := decks b; creates := S (creates b); notes := notes b |},
           respond JNull (Some "deck could not be created"))
    | None => (b, respond JNull (Some "missing deck name"))
    end
  else if String.eqb (action rq) "addNote" then
    let b' := {| decks := decks b; creates := creates b; notes := S (notes b) |} in
    if noteOk (notes b) then (b', respond (JNum (1000 + Z.of_nat (notes b))) None)
    else (b', respond JNull (Some "cannot create note"))
  else if String.eqb (action rq) "storeMediaFile" then
    (b, respond JNull None)
  else
    (b, respond JNull (Some "unsupported action")).

End Policy.

(** A fresh bridge without decks. *)
Definition empty : State := {| decks := []; creates := 0; notes := 0 |}.

(** A bridge that answers every request with a null result and no error. *)
Definition nulls (w : unit) (rq : AnkiConnectRequest) : unit * option HttpResponse :=
  (w, respond JNull None).

(** A bridge that reports version [v] and refuses everything else. *)
Definition versioned (v : Z) (w : unit) (rq : AnkiConnectRequest)
    : unit * option HttpResponse :=
  if String.eqb (action rq) "version" then (w, respond (JNum v) None)
  else (w, respond JNull (Some "unsupported action")).

(** The bridge is not running: every [fetch] rejects. *)
Definition offline (w : unit) (rq : AnkiConnectRequest) : unit * option HttpResponse :=
  (w, None).

End Bridge.

(* ================================================================== *)
(** ** The [App] component: search and page change *)

Module App.
Import Js Shared.

Record AppState : Type := {
  currentWord : string;
  searchResult : option SearchResult.t;
  paginatedImages : option PaginatedImageResult.t;
  explanation : option string;
  isLoading : bool;
  isImagesLoading : bool;
  showSettings : bool;
  showAnkiCardCreator : bool;
  selectedPhrases : list ExamplePhrase;
  selectedImages : list ImageResult;
  ankiMode : bool;
  settings : option AppSettings
}.

(** The state setters of the component. *)
Definition setCurrentWord (v : string) (s : AppState) : AppState :=
  {| currentWord := v; searchResult := searchResult s;
     paginatedImages := paginatedImages s; explanation := explanation s;
     isLoading := isLoading s; isImagesLoading := isImagesLoading s;
     showSettings := showSettings s; showAnkiCardCreator := showAnkiCardCreator s;
     selectedPhrases := selectedPhrases s; selectedImages := selectedImages s;
     ankiMode := ankiMode s; settings := settings s |}.

Definition setSearchResult (v : option SearchResult.t) (s : AppState) : AppState :=
  {| currentWord := currentWord s; searchResult := v;
     paginatedImages := paginatedImages s; explanation := explanation s;
     isLoading := isLoading s; isImagesLoading := isImagesLoading s;
     showSettings := showSettings s; showAnkiCardCreator := showAnkiCardCreator s;
     selectedPhrases := selectedPhrases s; selectedImages := selectedImages s;
     ankiMode := ankiMode s; settings := settings s |}.

Definition setPaginatedImages (v : option PaginatedImageResult.t) (s : AppState) : AppState :=
  {| currentWord := currentWord s; searchResult := searchResult s;
     paginatedImages := v; explanation := explanation s;
     isLoading := isLoading s; isImagesLoading := isImagesLoading s;
     showSettings := showSettings s; showAnkiCardCreator := showAnkiCardCreator s;
     selectedPhrases := selectedPhrases s; selectedImages := selectedImages s;
     ankiMode := ankiMode s; settings := settings s |}.

Definition setExplanation (v : option string) (s : AppState) : AppState :=
  {| currentWord := currentWord s; searchResult := searchResult s;
     paginatedImages := paginatedImages s; explanation := v;
     isLoading := isLoading s; isImagesLoading := isImagesLoading s;
     showSettings := showSettings s; showAnkiCardCreator := showAnkiCardCreator s;
     selectedPhrases := selectedPhrases s; selectedImages := selectedImages s;
     ankiMode := ankiMode s; settings := settings s |}.

Definition setIsLoading (v : bool) (s : AppState) : AppState :=
  {| currentWord := currentWord s; searchResult := searchResult s;
     paginatedImages := paginatedImages s; explanation := explanation s;
     isLoading := v; isImagesLoading := isImagesLoading s;
     showSettings := showSettings s; showAnkiCardCreator := showAnkiCardCreator s;
     selectedPhrases := selectedPhrases s; selectedImages := selectedImages s;
     ankiMode := ankiMode s; settings := settings s |}.

Definition setIsImagesLoading (v : bool) (s : AppState) : AppState :=
  {| currentWord := currentWord s; searchResult := searchResult s;
     paginatedImages := paginatedImages s; explanation := explanation s;
     isLoading := isLoading s; isImagesLoading := v;
     showSettings := showSettings s; showAnkiCardCreator := showAnkiCardCreator s;
     selectedPhrases := selectedPhrases s; selectedImages := selectedImages s;
     ankiMode := ankiMode s; settings := settings s |}.

Definition setShowAnkiCardCreator (v : bool) (s : AppState) : AppState :=
  {| currentWord := currentWord s; searchResult := searchResult s;
     paginatedImages := paginatedImages s; explanation := explanation s;
     isLoading := isLoading s; isImagesLoading := isImagesLoading s;
     showSettings := showSettings s; showAnkiCardCreator := v;
     selectedPhrases := selectedPhrases s; selectedImages := selectedImages s;
     ankiMode := ankiMode s; settings := settings s |}.

Definition setSelectedPhrases (v : list ExamplePhrase) (s : AppState) : AppState :=
  {| currentWord := currentWord s; searchResult := searchResult s;
     paginatedImages := paginatedImages s; explanation := explanation s;
     isLoading := isLoading s; isImagesLoading := isImagesLoading s;
     showSettings := showSettings s; showAnkiCardCreator := showAnkiCardCreator s;
     selectedPhrases := v; selectedImages := selectedImages s;
     ankiMode := ankiMode s; settings := settings s |}.

Definition setSelectedImages (v : list ImageResult) (s : AppState) : AppState :=
  {| currentWord := currentWord s; searchResult := searchResult s;
     paginatedImages := paginatedImages s; explanation := explanation s;
     isLoading := isLoading s; isImagesLoading := isImagesLoading s;
     showSettings := showSettings s; showAnkiCardCreator := showAnkiCardCreator s;
     selectedPhrases := selectedPhrases s; selectedImages := v;
     ankiMode := ankiMode s; settings := settings s |}.

Definition setAnkiMode (v : bool) (s : AppState) : AppState :=
  {| currentWord := currentWord s; searchResult := searchResult s;
     paginatedImages := paginatedImages s; explanation := explanation s;
     isLoading := isLoading s; isImagesLoading := isImagesLoading s;
     showSettings := showSettings s; showAnkiCardCreator := showAnkiCardCreator s;
     selectedPhrases := selectedPhrases s; selectedImages := selectedImages s;
     ankiMode := v; settings := settings s |}.

(** The component as first rendered. *)
Definition initial : AppState :=
  {| currentWord := ""; searchResult := None; paginatedImages := None;
     explanation := None; isLoading := false; isImagesLoading := false;
     showSettings := false; showAnkiCardCreator := false;
     selectedPhrases := []; selectedImages := []; ankiMode := false;
     settings := None |}.

(** How a promise settles. *)
Inductive Settled (A : Type) : Type :=
| Fulfilled (value : A)
| Rejected (reason : string).
Arguments Fulfilled {A} value.
Arguments Rejected {A} reason.

(** A call to [window.electronAPI] together with how it settled. *)
Inductive ApiCall : Type :=
| AddSearch (word : string) (outcome : Settled unit)
| SearchImages (word : string) (options : PaginationOptions)
    (outcome : Settled PaginatedImageResult.t)
| GeneratePhrases (word : string) (outcome : Settled (list ExamplePhrase))
| GenerateExplanation (word : string) (outcome : Settled string).

(** [window.electronAPI]: each call moves the environment and settles. *)
Record ElectronAPI (E : Type) : Type := {
  addSearch : E -> string -> E * Settled unit;
  searchImages : E -> string -> PaginationOptions -> E * Settled PaginatedImageResult.t;
  generatePhrases : E -> string -> E * Settled (list ExamplePhrase);
  generateExplanation : E -> string -> E * Settled string
}.
Arguments addSearch {E} _ _ _.
Arguments searchImages {E} _ _ _ _.
Arguments generatePhrases {E} _ _ _.
Arguments generateExplanation {E} _ _ _.

(** The paginated result substituted when the image lookup rejects. *)
Definition emptyImages : PaginatedImageResult.t :=
  {| PaginatedImageResult.images := [];
     PaginatedImageResult.currentPage := 1;
     PaginatedImageResult.totalPages := 1;
     PaginatedImageResult.hasNext := false;
     PaginatedImageResult.hasPrevious := false |}.

(** The [console.log] of the number of cards is not modelled. *)
Definition handleAnkiCardsCreated (s : AppState) : AppState :=
  setAnkiMode false (setSelectedImages [] (setSelectedPhrases [] s)).

Definition handleAnkiModeToggle (s : AppState) : AppState :=
  let s' := setAnkiMode (negb (ankiMode s)) s in
  if ankiMode s then setSelectedImages [] (setSelectedPhrases [] s') else s'.

(** The [alert] of the empty case is not modelled. *)
Definition handleCreateAnkiCards (s : AppState) : AppState :=
  if (List.length (selectedPhrases s) =? 0)%nat then s
  else setShowAnkiCardCreator true s.

Section Handlers.

Context {E : Type}.
Variable api : ElectronAPI E.

(** [handleSearch], run to completion: the new component state, the
    environment and the calls made, in the order they were issued. *)
Definition handleSearch (word : string) (s : AppState) (e : E)
    : AppState * E * list ApiCall :=
  if negb (truthy_str (trim word)) then (s, e, [])
  else
    let s := setIsLoading true s in
    let s := setIsImagesLoading true s in
    let s := setCurrentWord word s in
    let s := setExplanation None s in
    let s := setPaginatedImages None s in
    let s := setSelectedPhrases [] s in
    let s := setSelectedImages [] s in
    let s := setAnkiMode false s in
    let finally (s : AppState) := setIsImagesLoading false (setIsLoading false s) in
    let (e1, history) := addSearch api e word in
    match history with
    | Rejected _ => (finally s, e1, [AddSearch word history])
    | Fulfilled _ =>
        let options := {| page := 1; perPage := 6 |} in
        let (e2, images) := searchImages api e1 word options in
        let (e3, phrases) := generatePhrases api e2 word in
        let (e4, wordExplanation) := generateExplanation api e3 word in
        let imageResults :=
          match images with
          | Fulfilled value => value
          | Rejected _ => emptyImages
          end in
        let phraseResults :=
          match phrases with
          | Fulfilled value => value
          | Rejected _ => []
          end in
        let explanationResult :=
          match wordExplanation with
          | Fulfilled value => Some value
          | Rejected _ => None
          end in
        let s := setPaginatedImages (Some imageResults) s in
        let s := setSearchResult
                   (Some {| SearchResult.word := word;
                            SearchResult.images := PaginatedImageResult.images imageResults;
                            SearchResult.phrases := phraseResults |}) s in
        let s := setExplanation explanationResult s in
        (finally s, e4,
         [AddSearch word history; SearchImages word options images;
          GeneratePhrases word phrases; GenerateExplanation word wordExplanation])
    end.

End Handlers.

(** [handlePageChange] up to its [await]: [None] when the guard returns,
    otherwise the state with the in-flight flag set and the image lookup
    to issue. *)
Definition handlePageChange_begin (page : Z) (s : AppState)
    : option (AppState * (string * PaginationOptions)) :=
  if negb (truthy_str (currentWord s)) || isImagesLoading s then None
  else Some (setIsImagesLoading true s,
             (currentWord s, {| Shared.page := page; perPage := 6 |})).

(** [handlePageChange] from its [await] on, once the lookup has settled. *)
Definition handlePageChange_resume (outcome : Settled PaginatedImageResult.t)
    (s : AppState) : AppState :=
  let s :=
    match outcome with
    | Fulfilled imageResult =>
        let s := setPaginatedImages (Some imageResult) s in
        setSearchResult
          (match searchResult s with
           | Some prev =>
               Some {| SearchResult.word := SearchResult.word prev;
                       SearchResult.images := PaginatedImageResult.images imageResult;
                       SearchResult.phrases := SearchResult.phrases prev |}
           | None => None
           end) s
    | Rejected _ => s
    end in
  setIsImagesLoading false s.

(** [handlePageChange], run to completion against the environment. *)
Definition handlePageChange {E : Type} (api : ElectronAPI E) (page : Z)
    (s : AppState) (e : E) : AppState * E * list ApiCall :=
  match handlePageChange_begin page s with
  | None => (s, e, [])
  | Some (s1, (word, options)) =>
      let (e1, outcome) := searchImages api e word options in
      (handlePageChange_resume outcome s1, e1, [SearchImages word options outcome])
  end.

(** *** Paste and search

    What [navigator.clipboard] offers: no [readText] at all, or a read that
    settles. *)
Inductive Clipboard : Type :=
| NoClipboard
| ReadText (outcome : Settled string).

(** The calls made on the search bar through its ref. *)
Inductive BarCall : Type :=
| SetQuery (query : string)
| Focus.

(** [handlePasteAndSearch], with the search it starts run to completion:
    the calls made on the search bar ([hasBar] tells whether the ref is
    set), the component state, the environment and the calls of the
    search.  The length is that of the byte string. *)
Definition handlePasteAndSearch {E : Type} (api : ElectronAPI E)
    (clipboard : Clipboard) (hasBar : bool) (s : AppState) (e : E)
    : list BarCall * (AppState * E * list ApiCall) :=
  match clipboard with
  | NoClipboard => ([], (s, e, []))
  | ReadText (Rejected _) => ([], (s, e, []))
  | ReadText (Fulfilled clipboardText) =>
      let trimmedText := trim clipboardText in
      if truthy_str trimmedText then
        let bar := if hasBar then [SetQuery trimmedText; Focus] else [] in
        if (0 <? String.length trimmedText)%nat
           && (String.length trimmedText <? 100)%nat
           && negb (str_includes nl trimmedText)
        then (bar, handleSearch api trimmedText s e)
        else (bar, (s, e, []))
      else ([], (s, e, []))
  end.

(** *** A session of the component

    Between the two halves of [handlePageChange] the user can click again,
    or search.  A session records the component state as last rendered,
    the image lookups of page changes that have not settled yet, oldest
    first, and every such lookup issued so far.  Its events are a click on
    a page, the settling of the oldest pending lookup, and a search that
    runs to completion, given how its four calls settle. *)

(** How the four calls of one search settle, and the preload API that
    settles them so. *)
Record Script : Type := {
  history : Settled unit;
  pictures : Settled PaginatedImageResult.t;
  sentences : Settled (list ExamplePhrase);
  meaning : Settled string
}.

Definition scripted (sc : Script) : ElectronAPI unit :=
  {| addSearch := fun e _ => (e, history sc);
     searchImages := fun e _ _ => (e, pictures sc);
     generatePhrases := fun e _ => (e, sentences sc);
     generateExplanation := fun e _ => (e, meaning sc) |}.

Inductive Event : Type :=
| PageChange (page : Z)
| ImagesSettled (outcome : Settled PaginatedImageResult.t)
| Search (word : string) (answers : Script).

Definition isSearch (ev : Event) : bool :=
  match ev with
  | Search _ _ => true
  | _ => false
  end.

Record Session : Type := {
  ui : AppState;
  inflight : list (string * PaginationOptions);
  issued : list (string * PaginationOptions)
}.

Definition step (x : Session) (ev : Event) : Session :=
  match ev with
  | PageChange page =>
      match handlePageChange_begin page (ui x) with
      | None => x
      | Some (s, call) =>
          {| ui := s; inflight := (inflight x ++ [call])%list;
             issued := (issued x ++ [call])%list |}
      end
  | ImagesSettled outcome =>
      match inflight x with
      | [] => x
      | _ :: rest =>
          {| ui := handlePageChange_resume outcome (ui x); inflight := rest;
             issued := issued x |}
      end
  | Search word answers =>
      {| ui := fst (fst (handleSearch (scripted answers) word (ui x) tt));
         inflight := inflight x; issued := issued x |}
  end.

Definition run (evs : list Event) (x : Session) : Session :=
  fold_left step evs x.

(** No lookup is pending and the in-flight flag is down. *)
Definition quiet (x : Session) : Prop :=
  inflight x = [] /\ isImagesLoading (ui x) = false.

(** The in-flight flag tells whether a lookup is pending, and at most one
    is. *)
Definition tracked (x : Session) : Prop :=
  (inflight x = [] /\ isImagesLoading (ui x) = false) \/
  (exists call, inflight x = [call] /\ isImagesLoading (ui x) = true).

(** What the merged result keeps of a source that rejected. *)
Definition imagesOr (outcome : Settled PaginatedImageResult.t) : PaginatedImageResult.t :=
  match outcome with
  | Fulfilled value => value
  | Rejected _ => emptyImages
  end.

Definition phrasesOr (outcome : Settled (list ExamplePhrase)) : list ExamplePhrase :=
  match outcome with
  | Fulfilled value => value
  | Rejected _ => []
  end.

Definition explanationOr (outcome : Settled string) : option string :=
  match outcome with
  | Fulfilled value => Some value
  | Rejected _ => None
  end.

(** The images of the merged result are those of the paginated result,
    when both are there. *)
Definition consistent (s : AppState) : Prop :=
  match searchResult s, paginatedImages s with
  | Some merged, Some paginated =>
      SearchResult.images merged = PaginatedImageResult.images paginated
  | _, _ => True
  end.

(** The page-change guard as the handler evaluates it. *)
Definition guarded (s : AppState) : bool :=
  negb (truthy_str (currentWord s)) || isImagesLoading s.

End App.

(* ================================================================== *)
(** ** Fixtures for the examples *)

Module Fixtures.
Import Js Shared AnkiService App.

Definition casa : AnkiCard :=
  {| word := "casa"; AnkiService.explanation := "house";
     phrase := {| text := "mi casa"; translation := "my house"; category := "nouns" |};
     image := None; audioUrl := None |}.

(** A card for a number word, with a recorded pronunciation. *)
Definition number (w t : string) : AnkiCard :=
  {| word := w; AnkiService.explanation := "";
     phrase := {| text := w; translation := t; category := "numbers" |};
     image := Some {| thumbnail := "https://img.example/" ++ w |};
     audioUrl := Some "data:audio/mpeg;base64,AAAA" |}.

(** A card with every optional part. *)
Definition gato : AnkiCard :=
  {| word := "Gato"; AnkiService.explanation := "a small domestic feline";
     phrase := {| text := "el gato duerme"; translation := "the cat sleeps";
                  category := "animals" |};
     image := Some {| thumbnail := "https://img.example/gato.jpg" |};
     audioUrl := Some "data:audio/ogg;base64,T2dnUw" |}.

Definition five : list AnkiCard :=
  [number "Uno" "one"; number "Dos" "two"; number "Tres" "three";
   number "Cuatro" "four"; number "Cinco" "five"].

(** Policies for the simulated bridge. *)
Definition always (n : nat) : bool := true.
Definition never (n : nat) : bool := false.
Definition notFirst (n : nat) : bool := negb (n =? 0)%nat.
Definition notSecondNorFourth (n : nat) : bool := negb ((n =? 1)%nat || (n =? 3)%nat).

Definition miCasa : ExamplePhrase :=
  {| text := "mi casa"; translation := "my house"; category := "nouns" |}.

Definition pageOf (n : Z) (names : list string) : PaginatedImageResult.t :=
  {| PaginatedImageResult.images := map (fun u => {| thumbnail := u |}) names;
     PaginatedImageResult.currentPage := n;
     PaginatedImageResult.totalPages := 3;
     PaginatedImageResult.hasNext := n <? 3;
     PaginatedImageResult.hasPrevious := 1 <? n |}.

(** Every source answers. *)
Definition allGood : Script :=
  {| history := Fulfilled tt;
     pictures := Fulfilled (pageOf 1 ["a.jpg"; "b.jpg"]);
     sentences := Fulfilled [miCasa];
     meaning := Fulfilled "house" |}.

(** Only the image lookup rejects. *)
Definition imagesDown : Script :=
  {| history := Fulfilled tt;
     pictures := Rejected "image search timed out";
     sentences := Fulfilled [miCasa];
     meaning := Fulfilled "house" |}.

(** The images arrive, the phrases and the explanation do not. *)
Definition textDown : Script :=
  {| history := Fulfilled tt;
     pictures := Fulfilled (pageOf 1 ["a.jpg"; "b.jpg"]);
     sentences := Rejected "no completion";
     meaning := Rejected "no completion" |}.

(** Only the search history rejects. *)
Definition historyDown : Script :=
  {| history := Rejected "history store unavailable";
     pictures := Fulfilled (pageOf 1 ["a.jpg"; "b.jpg"]);
     sentences := Fulfilled [miCasa];
     meaning := Fulfilled "house" |}.

Definition miPerro : ExamplePhrase :=
  {| text := "mi perro"; translation := "my dog"; category := "nouns" |}.

(** The answers to a search of perro. *)
Definition perroFound : Script :=
  {| history := Fulfilled tt;
     pictures := Fulfilled (pageOf 1 ["d.jpg"; "e.jpg"]);
     sentences := Fulfilled [miPerro];
     meaning := Fulfilled "dog" |}.

(** The component after a search of casa in which every source answered. *)
Definition shown : AppState :=
  fst (fst (handleSearch (scripted allGood) "casa" initial tt)).

End Fixtures.

(* ================================================================== *)
(** ** Properties of the string helpers *)

Module JsFacts.
Import Js.

Lemma trimEnd_blank (s : string) : isBlank s = true -> trimEnd s = "".
Proof.
  induction s as [|c s IH]; simpl; [reflexivity|].
  intros H. apply andb_prop in H as [Hc Hs].
  rewrite (IH Hs), Hc. reflexivity.
Qed.

Lemma trimStart_blank (s : string) : isBlank s = true -> trimStart s = "".
Proof.
  induction s as [|c s IH]; simpl; [reflexivity|].
  intros H. apply andb_prop in H as [Hc Hs]. rewrite Hc. auto.
Qed.

Lemma trim_blank (s : string) : isBlank s = true -> trim s = "".
Proof.
  intros H. unfold trim. rewrite (trimStart_blank s H). reflexivity.
Qed.

(** What [trimStart] leaves is empty or starts with a character that is not
    white space. *)
Lemma trimStart_head (s : string) :
  isBlank s = false ->
  exists c rest, trimStart s = String c rest /\ isWhiteSpace c = false.
Proof.
  induction s as [|c s IH]; simpl; [discriminate|].
  destruct (isWhiteSpace c) eqn:Hc; simpl; intros H.
  - auto.
  - exists c, s. auto.
Qed.

Lemma trimEnd_head (c : ascii) (s : string) :
  isWhiteSpace c = false -> truthy_str (trimEnd (String c s)) = true.
Proof.
  intros Hc. simpl. destruct (trimEnd s); [rewrite Hc|]; reflexivity.
Qed.

Lemma trim_not_blank (s : string) :
  isBlank s = false -> truthy_str (trim s) = true.
Proof.
  intros H. destruct (trimStart_head s H) as (c & rest & E & Hc).
  unfold trim. rewrite E. apply trimEnd_head, Hc.
Qed.

(** [trim] yields the empty string exactly on blank strings. *)
Lemma trim_empty_iff (s : string) :
  truthy_str (trim s) = false <-> isBlank s = true.
Proof.
  split; intros H.
  - destruct (isBlank s) eqn:B; [reflexivity|].
    rewrite (trim_not_blank s B) in H. discriminate.
  - rewrite (trim_blank s H). reflexivity.
Qed.

Lemma prefix_refl_app (x b : string) : String.prefix x (x ++ b) = true.
Proof.
  induction x as [|c x IH]; simpl.
  - destruct b; reflexivity.
  - destruct (ascii_dec c c); [exact IH | congruence].
Qed.

Lemma str_includes_prefix (x h : string) :
  String.prefix x h = true -> str_includes x h = true.
Proof.
  intros H. destruct h; unfold str_includes; fold str_includes; rewrite H; reflexivity.
Qed.

Lemma str_includes_here (x b : string) : str_includes x (x ++ b) = true.
Proof. apply str_includes_prefix, prefix_refl_app. Qed.

Lemma str_includes_skip (x a b : string) :
  str_includes x b = true -> str_includes x (a ++ b) = true.
Proof.
  induction a as [|c a IH]; simpl; intros H; [exact H|].
  rewrite (IH H). apply orb_true_r.
Qed.

(** A string includes whatever is spliced into it. *)
Lemma str_includes_middle (x a b : string) : str_includes x (a ++ x ++ b) = true.
Proof. apply str_includes_skip, str_includes_here. Qed.

End JsFacts.

(* ================================================================== *)
(** ** Runs of the AnkiConnect client *)

Module AnkiFacts.
Import Js Shared AnkiService.

Section Primitives.

Context {W : Type}.
Variable fetch : W -> AnkiConnectRequest -> W * option HttpResponse.

(** Each primitive is one exchange with the bridge. *)
Lemma sendRequest_run (rq : AnkiConnectRequest) (w : W) :
  sendRequest fetch rq w =
  (fst (fetch w rq), [(rq, snd (fetch w rq))], received (snd (fetch w rq))).
Proof. unfold sendRequest. destruct (fetch w rq); reflexivity. Qed.

Lemma getDeckNames_run (w : W) :
  getDeckNames fetch w =
  (fst (fetch w deckNamesRequest),
   [(deckNamesRequest, snd (fetch w deckNamesRequest))],
   Ok (namesOf (snd (fetch w deckNamesRequest)))).
Proof.
  unfold getDeckNames, try_catch, bind. rewrite sendRequest_run.
  unfold namesOf, ret.
  destruct (received _) as [body|e]; reflexivity.
Qed.

Lemma createDeck_run (deck : string) (w : W) :
  createDeck fetch deck w =
  (fst (fetch w (createDeckRequest deck)),
   [(createDeckRequest deck, snd (fetch w (createDeckRequest deck)))],
   Ok (createdBy (snd (fetch w (createDeckRequest deck))))).
Proof.
  unfold createDeck, try_catch, bind. rewrite sendRequest_run.
  unfold createdBy, ret.
  destruct (received _) as [body|e]; reflexivity.
Qed.

Lemma addAudioToCard_run (noteId : JVal) (url name : string) (w : W) :
  addAudioToCard fetch noteId url name w =
  (fst (fetch w (storeMediaFileRequest url name)),
   [(storeMediaFileRequest url name,
     snd (fetch w (storeMediaFileRequest url name)))],
   Ok tt).
Proof.
  unfold addAudioToCard, try_catch, bind. rewrite sendRequest_run.
  unfold ret. destruct (received _); reflexivity.
Qed.

End Primitives.

Lemma action_addNote (card : AnkiCard) (deck : string) :
  action (addNoteRequest card deck) = "addNote".
Proof. reflexivity. Qed.

Lemma requestsOf_app (a : string) (t1 t2 : list Exchange) :
  requestsOf a (t1 ++ t2) = (requestsOf a t1 ++ requestsOf a t2)%list.
Proof. unfold requestsOf. rewrite map_app, filter_app. reflexivity. Qed.

Lemma notesAccepted_app (t1 t2 : list Exchange) :
  notesAccepted (t1 ++ t2) = (notesAccepted t1 ++ notesAccepted t2)%list.
Proof. apply filter_app. Qed.

Lemma notesRefused_app (t1 t2 : list Exchange) :
  notesRefused (t1 ++ t2) = (notesRefused t1 ++ notesRefused t2)%list.
Proof. apply filter_app. Qed.

(** Evaluation that leaves the requests and the replies folded. *)
Ltac reduce_run :=
  cbn -[addNoteRequest createDeckRequest deckNamesRequest storeMediaFileRequest
        received namesOf createdBy includesValue accepted cardRequests
        truthy truthy_opt String.append].

(** Case analysis of a run of [addCard], one goal per path through it. *)
Ltac run_addCard :=
  unfold addCard, try_catch, bind, when, includes;
  rewrite getDeckNames_run;
  repeat (reduce_run;
    match goal with
    | |- context [includesValue ?v ?d] =>
        destruct (includesValue v d) as [[|]|] eqn:?
    | |- context [createDeck ?f ?d ?w] => rewrite (createDeck_run f d w)
    | |- context [sendRequest ?f ?r ?w] => rewrite (sendRequest_run f r w)
    | |- context [addAudioToCard ?f ?n ?u ?x ?w] =>
        rewrite (addAudioToCard_run f n u x w)
    | |- context [match received ?r with _ => _ end] => destruct (received r) eqn:?
    | |- context [if negb ?b then _ else _] => destruct b eqn:?
    | |- context [if ?b then _ else _] => destruct b eqn:?
    end); reduce_run.

(** Reading the requests and the accepted notes off an explicit trace. *)
Ltac read_trace :=
  unfold requestsOf, notesAccepted, notesRefused, accepted;
  cbn [map filter fst snd];
  rewrite ?action_addNote;
  repeat match goal with
         | H : received _ = _ |- _ => rewrite H
         | H : truthy_opt (error _) = _ |- _ => rewrite H
         end;
  cbn -[addNoteRequest received].

Ltac in_requests :=
  unfold cardRequests; cbn [In fst];
  repeat first [left; reflexivity | right].

Section Cards.

Context {W : Type}.
Variable fetch : W -> AnkiConnectRequest -> W * option HttpResponse.

(** [addCard] absorbs every exception, and talks to the bridge only through
    the four requests of its card. *)
Lemma addCard_run (card : AnkiCard) (deck : string) (w : W) :
  exists w' t b,
    addCard fetch card deck w = (w', t, Ok b) /\
    Forall (fun x => In (fst x) (cardRequests card deck)) t.
Proof.
  run_addCard;
    (do 3 eexists; split;
     [reflexivity | repeat (apply Forall_cons; [in_requests|]); apply Forall_nil]).
Qed.

Lemma ensureFails_spec (deck : string) (w : W) :
  ensureFails fetch deck w = true ->
  includesValue (namesOf (snd (fetch w deckNamesRequest))) deck = Some false /\
  createdBy (snd (fetch (fst (fetch w deckNamesRequest)) (createDeckRequest deck)))
    = false.
Proof.
  unfold ensureFails. destruct (fetch w deckNamesRequest) as [w1 r1]; cbn [fst snd].
  destruct (includesValue (namesOf r1) deck) as [[|]|]; try discriminate.
  intros H. split; [reflexivity|]. now apply negb_true_iff.
Qed.

(** When the deck-ensure step fails, [addCard] stops after the two
    exchanges of that step and returns [false]. *)
Lemma addCard_ensure_fails (card : AnkiCard) (deck : string) (w : W) :
  ensureFails fetch deck w = true ->
  addCard fetch card deck w =
  (fst (fetch (fst (fetch w deckNamesRequest)) (createDeckRequest deck)),
   [(deckNamesRequest, snd (fetch w deckNamesRequest));
    (createDeckRequest deck,
     snd (fetch (fst (fetch w deckNamesRequest)) (createDeckRequest deck)))],
   Ok false).
Proof.
  intros H. apply ensureFails_spec in H as [Hn Hc].
  revert Hn Hc. run_addCard; intros; first [reflexivity | congruence].
Qed.

(** One turn of the loop of [addCards]. *)
Lemma addCards_from_cons (s f : Z) (card : AnkiCard) (rest : list AnkiCard)
    (deck : string) (w w1 : W) (t1 : list Exchange) (b : bool) :
  addCard fetch card deck w = (w1, t1, Ok b) ->
  addCards_from fetch s f (card :: rest) deck w =
  let '(w2, t2, r) :=
    addCards_from fetch (if b then s + 1 else s) (if b then f else f + 1)
      rest deck w1 in
  (w2, (t1 ++ t2)%list, r).
Proof.
  intros H. cbn [addCards_from]. unfold bind at 1. rewrite H.
  destruct b; reflexivity.
Qed.

(** The counters of the loop only shift the tally. *)
Lemma addCards_from_shift (cards : list AnkiCard) (deck : string) :
  forall (s f : Z) (w : W),
  addCards_from fetch s f cards deck w =
  let '(w', t, r) := addCards_from fetch 0 0 cards deck w in
  (w', t,
   match r with
   | Ok tally => Ok {| success := s + success tally; failed := f + failed tally |}
   | Throw e => Throw e
   end).
Proof.
  induction cards as [|card rest IH]; intros s f w.
  - cbn. unfold ret. rewrite !Z.add_0_r. reflexivity.
  - cbn [addCards_from]. unfold bind.
    destruct (addCard fetch card deck w) as [[w1 t1] [b|e]]; [|reflexivity].
    destruct b.
    + rewrite (IH (s + 1) f), (IH (0 + 1) 0).
      destruct (addCards_from fetch 0 0 rest deck w1) as [[w2 t2] [tally|e]];
        [|reflexivity].
      cbn [success failed]. do 3 f_equal; lia.
    + rewrite (IH s (f + 1)), (IH 0 (0 + 1)).
      destruct (addCards_from fetch 0 0 rest deck w1) as [[w2 t2] [tally|e]];
        [|reflexivity].
      cbn [success failed]. do 3 f_equal; lia.
Qed.

(** What [addCards] does with the first card of a batch. *)
Lemma addCards_cons (card : AnkiCard) (rest : list AnkiCard) (deck : string)
    (w w1 w2 : W) (t1 t2 : list Exchange) (b : bool) (tally : Tally) :
  addCard fetch card deck w = (w1, t1, Ok b) ->
  addCards fetch rest deck w1 = (w2, t2, Ok tally) ->
  addCards fetch (card :: rest) deck w =
  (w2, (t1 ++ t2)%list,
   Ok {| success := if b then success tally + 1 else success tally;
         failed := if b then failed tally else failed tally + 1 |}).
Proof.
  unfold addCards. intros Hc Hr.
  rewrite (addCards_from_cons _ _ _ _ _ _ _ _ _ Hc).
  rewrite addCards_from_shift, Hr.
  destruct b; do 3 f_equal; lia.
Qed.

(** [addCards] never throws and its tally has one count per card. *)
Lemma addCards_run (cards : list AnkiCard) (deck : string) :
  forall w : W,
  exists w' t tally,
    addCards fetch cards deck w = (w', t, Ok tally) /\
    0 <= success tally /\ 0 <= failed tally /\
    success tally + failed tally = Z.of_nat (length cards).
Proof.
  induction cards as [|card rest IH]; intros w.
  - exists w, [], {| success := 0; failed := 0 |}. cbn. repeat split; lia.
  - destruct (addCard_run card deck w) as (w1 & t1 & b & Hc & _).
    destruct (IH w1) as (w2 & t2 & tally & Hr & Hs & Hf & Hsum).
    rewrite (addCards_cons _ _ _ _ _ _ _ _ _ _ Hc Hr).
    do 3 eexists. split; [reflexivity|].
    cbn [success failed length]. rewrite Nat2Z.inj_succ.
    destruct b; repeat split; lia.
Qed.

(** An export is one run of [addCard] per card, whatever the runs before
    returned, and its tally counts the runs by what they returned. *)
Lemma addCards_runs (cards : list AnkiCard) (deck : string) :
  forall w : W,
  exists runs w',
    CardRuns fetch deck w cards runs w' /\
    length runs = length cards /\
    addCards fetch cards deck w =
      (w', concat (map fst runs),
       Ok {| success := succeeded runs; failed := failing runs |}).
Proof.
  induction cards as [|card rest IH]; intros w.
  - exists [], w. repeat split. constructor.
  - destruct (addCard_run card deck w) as (w1 & t1 & b & Hc & _).
    destruct (IH w1) as (runs & w2 & Hruns & Hlen & Hr).
    exists ((t1, b) :: runs), w2. split; [|split].
    + econstructor; eassumption.
    + cbn [length]. rewrite Hlen. reflexivity.
    + rewrite (addCards_cons _ _ _ _ _ _ _ _ _ _ Hc Hr).
      cbn [map concat fst success failed].
      unfold succeeded, failing. cbn [filter snd].
      destruct b; cbn [negb length]; rewrite Nat2Z.inj_succ;
        do 3 f_equal; lia.
Qed.

Section Ready.

Variable deck : string.
Variable hasDeck : W -> bool.
Hypothesis ready : DeckReady fetch deck hasDeck.

(** Against a bridge that handles the deck, a card costs one [addNote],
    preceded by one [createDeck] exactly when the deck was missing, and
    [addCard] returns whether the note was accepted. *)
Lemma addCard_ready (card : AnkiCard) (w : W) :
  exists w' t b,
    addCard fetch card deck w = (w', t, Ok b) /\
    hasDeck w' = true /\
    requestsOf "addNote" t = [addNoteRequest card deck] /\
    requestsOf "createDeck" t =
      (if hasDeck w then [] else [createDeckRequest deck]) /\
    (hasDeck w = false ->
     exists x y rest,
       t = x :: y :: rest /\ fst x = deckNamesRequest /\
       fst y = createDeckRequest deck) /\
    length (notesAccepted t) = (if b then 1 else 0)%nat /\
    length (notesRefused t) = (if b then 0 else 1)%nat.
Proof.
  destruct (names_served _ _ _ ready w) as [Hn Hk].
  destruct (deck_created _ _ _ ready (fst (fetch w deckNamesRequest))) as [Hc Hd].
  pose proof (deck_kept _ _ _ ready) as Hkeep.
  revert Hn Hc. run_addCard; intros Hn Hc; try congruence;
    (do 3 eexists; split; [reflexivity|]);
    (split; [auto 6|]); read_trace;
    repeat split; try reflexivity; intros; try discriminate;
    do 3 eexists; repeat split.
Qed.

(** The same for a batch: the deck is created at most once, by the first
    card, every card gets its [addNote], in order, and the tally counts the
    accepted and the refused notes. *)
Lemma addCards_ready (cards : list AnkiCard) :
  forall w : W,
  exists w' t tally,
    addCards fetch cards deck w = (w', t, Ok tally) /\
    requestsOf "addNote" t = map (fun c => addNoteRequest c deck) cards /\
    requestsOf "createDeck" t =
      (if hasDeck w then []
       else match cards with
            | [] => []
            | _ :: _ => [createDeckRequest deck]
            end) /\
    (hasDeck w = false -> cards <> [] ->
     exists x y rest,
       t = x :: y :: rest /\ fst x = deckNamesRequest /\
       fst y = createDeckRequest deck) /\
    success tally = Z.of_nat (length (notesAccepted t)) /\
    failed tally = Z.of_nat (length (notesRefused t)).
Proof.
  induction cards as [|card rest IH]; intros w.
  - exists w, [], {| success := 0; failed := 0 |}. cbn.
    repeat split; try congruence. destruct (hasDeck w); reflexivity.
  - destruct (addCard_ready card w)
      as (w1 & t1 & b & Hc & Hd & Hnote & Hcreate & Hhead & Hacc & Href).
    destruct (IH w1) as (w2 & t2 & tally & Hr & Hnotes & Hcreates & _ & Hs & Hf).
    rewrite Hd in Hcreates.
    rewrite (addCards_cons _ _ _ _ _ _ _ _ _ _ Hc Hr).
    do 3 eexists. split; [reflexivity|].
    rewrite !requestsOf_app, notesAccepted_app, notesRefused_app, !length_app.
    rewrite Hnote, Hnotes, Hcreate, Hcreates, Hacc, Href, app_nil_r.
    cbn [success failed map app].
    repeat split.
    + intros Hw _. destruct (Hhead Hw) as (x & y & tl & -> & Hx & Hy).
      exists x, y, (tl ++ t2)%list. repeat split; assumption.
    + destruct b; lia.
    + destruct b; lia.
Qed.

End Ready.

End Cards.

(** The simulated bridge handles the deck when creation always succeeds. *)
Lemma bridge_ready (noteOk : nat -> bool) (deck : string) :
  DeckReady (Bridge.fetch Fixtures.always noteOk) deck (Bridge.hasDeck deck).
Proof.
  split.
  - intros b. cbn. split; [|reflexivity].
    unfold includesValue, namesOf, Bridge.hasDeck. cbn. f_equal.
    induction (Bridge.decks b) as [|d ds IH]; cbn; [reflexivity|].
    rewrite IH. reflexivity.
  - intros b. cbn. split; [reflexivity|].
    unfold Bridge.hasDeck. cbn.
    destruct (existsb _ (Bridge.decks b)) eqn:E; [exact E|].
    rewrite existsb_app. cbn. rewrite String.eqb_refl. apply orb_true_r.
  - intros b rq Hb. unfold Bridge.fetch.
    repeat match goal with
           | |- context [if ?c then _ else _] => destruct c eqn:?
           | |- context [match ?c with _ => _ end] => destruct c eqn:?
           end; cbn; try exact Hb.
    unfold Bridge.hasDeck. cbn. rewrite existsb_app.
    unfold Bridge.hasDeck in Hb. rewrite Hb. reflexivity.
Qed.

End AnkiFacts.

(* ================================================================== *)
(** ** The flashcard export *)

Module FlashcardExport.
Import Js Shared AnkiService AnkiFacts Fixtures.

(** C1 (as the code has it): when the deck-ensure step fails for a card
    (the deck is absent and the create-deck call fails), that card is not
    submitted: its run consists of the [deckNames] and the [createDeck]
    exchange only, and it counts as failed.  The export is not aborted: the
    remaining cards are run from the state the bridge is left in, each with
    its own deck-ensure step, and the outcome is the usual tally, with one
    more failure. *)
Theorem ensure_failure_fails_one_card :
  forall (W : Type) (fetch : W -> AnkiConnectRequest -> W * option HttpResponse)
         (card : AnkiCard) (rest : list AnkiCard) (deck : string) (w : W),
    ensureFails fetch deck w = true ->
    exists w1 x y w2 t tally,
      addCard fetch card deck w = (w1, [x; y], Ok false) /\
      fst x = deckNamesRequest /\ fst y = createDeckRequest deck /\
      addCards fetch rest deck w1 = (w2, t, Ok tally) /\
      addCards fetch (card :: rest) deck w =
        (w2, x :: y :: t,
         Ok {| success := success tally; failed := failed tally + 1 |}).
Proof.
  intros W fetch card rest deck w H.
  pose proof (addCard_ensure_fails fetch card deck w H) as Hc.
  destruct (addCards_run fetch rest deck
              (fst (fetch (fst (fetch w deckNamesRequest)) (createDeckRequest deck))))
    as (w2 & t & tally & Hr & _).
  do 6 eexists. split; [exact Hc|]. split; [reflexivity|]. split; [reflexivity|].
  split; [exact Hr|].
  rewrite (addCards_cons fetch _ _ _ _ _ _ _ _ _ _ Hc Hr). reflexivity.
Qed.

(** The bridge refuses to create the deck: the first card is not submitted,
    the second one is tried all the same. *)
Lemma ensure_failure_fails_one_card_witness :
  ensureFails (Bridge.fetch never always) DEFAULT_DECK Bridge.empty = true /\
  exists w1 x y w2 t tally,
    addCard (Bridge.fetch never always) casa DEFAULT_DECK Bridge.empty
      = (w1, [x; y], Ok false) /\
    fst x = deckNamesRequest /\ fst y = createDeckRequest DEFAULT_DECK /\
    addCards (Bridge.fetch never always) [number "Dos" "two"] DEFAULT_DECK w1
      = (w2, t, Ok tally) /\
    addCards (Bridge.fetch never always) [casa; number "Dos" "two"]
      DEFAULT_DECK Bridge.empty
      = (w2, x :: y :: t,
         Ok {| success := success tally; failed := failed tally + 1 |}).
Proof.
  split; [reflexivity|].
  apply (ensure_failure_fails_one_card Bridge.State (Bridge.fetch never always)
           casa [number "Dos" "two"] DEFAULT_DECK Bridge.empty).
  reflexivity.
Defined.

(** C1, counterexample: with a bridge on which only the first [createDeck]
    fails, the deck-ensure step of the first card fails and the export
    still submits the second card; and when [createDeck] always fails, the
    outcome is the tally a completed run returns when every note is
    refused. *)
Lemma ensure_failure_does_not_abort :
  let flaky := addCards (Bridge.fetch notFirst always)
                 [casa; number "Dos" "two"] DEFAULT_DECK Bridge.empty in
  let refused := addCards (Bridge.fetch never always)
                   [casa; number "Dos" "two"] DEFAULT_DECK Bridge.empty in
  let completed := addCards (Bridge.fetch always never)
                     [casa; number "Dos" "two"] DEFAULT_DECK Bridge.empty in
  ensureFails (Bridge.fetch notFirst always) DEFAULT_DECK Bridge.empty = true /\
  map (fun x => action (fst x)) (traceOf flaky) =
    ["deckNames"; "createDeck"; "deckNames"; "createDeck"; "addNote";
     "storeMediaFile"] /\
  requestsOf "addNote" (traceOf flaky) = [addNoteRequest (number "Dos" "two") DEFAULT_DECK] /\
  resultOf flaky = Ok {| success := 1; failed := 1 |} /\
  ensureFails (Bridge.fetch never always) DEFAULT_DECK Bridge.empty = true /\
  requestsOf "addNote" (traceOf completed) =
    [addNoteRequest casa DEFAULT_DECK; addNoteRequest (number "Dos" "two") DEFAULT_DECK] /\
  resultOf refused = Ok {| success := 0; failed := 2 |} /\
  resultOf completed = resultOf refused.
Proof. vm_compute. repeat split. Qed.

(** C2: against a bridge that handles the deck, an export of a non-empty
    list of cards to a deck that does not exist yet starts with the
    [deckNames] query and the [createDeck] call; no other [createDeck] is
    issued, and the [addNote] calls, which all come after it, are those of
    the cards, one per card and in the order of the list. *)
Theorem export_creates_deck_once :
  forall (W : Type) (fetch : W -> AnkiConnectRequest -> W * option HttpResponse)
         (deck : string) (hasDeck : W -> bool) (cards : list AnkiCard) (w : W),
    DeckReady fetch deck hasDeck ->
    hasDeck w = false ->
    cards <> [] ->
    exists x y rest,
      traceOf (addCards fetch cards deck w) = x :: y :: rest /\
      fst x = deckNamesRequest /\
      fst y = createDeckRequest deck /\
      requestsOf "createDeck" (traceOf (addCards fetch cards deck w))
        = [createDeckRequest deck] /\
      requestsOf "createDeck" rest = [] /\
      requestsOf "addNote" rest = map (fun c => addNoteRequest c deck) cards.
Proof.
  intros W fetch deck hasDeck cards w ready Hw Hcards.
  destruct (addCards_ready fetch deck hasDeck ready cards w)
    as (w' & t & tally & Hrun & Hnotes & Hcreates & Hhead & _).
  destruct (Hhead Hw Hcards) as (x & y & rest & -> & Hx & Hy).
  rewrite Hrun. unfold traceOf. cbn [fst snd].
  rewrite Hw in Hcreates. destruct cards as [|c cs]; [congruence|].
  exists x, y, rest. repeat split; try assumption.
  - revert Hcreates. unfold requestsOf. cbn [map filter]. rewrite Hx, Hy. cbn.
    intros E. injection E as E. exact E.
  - revert Hnotes. unfold requestsOf. cbn [map filter]. rewrite Hx, Hy. cbn.
    intros E. exact E.
Qed.

(** Five cards against a fresh bridge. *)
Lemma export_creates_deck_once_witness :
  exists x y rest,
    traceOf (addCards (Bridge.fetch always always) five DEFAULT_DECK Bridge.empty)
      = x :: y :: rest /\
    fst x = deckNamesRequest /\
    fst y = createDeckRequest DEFAULT_DECK /\
    requestsOf "createDeck"
      (traceOf (addCards (Bridge.fetch always always) five DEFAULT_DECK Bridge.empty))
      = [createDeckRequest DEFAULT_DECK] /\
    requestsOf "createDeck" rest = [] /\
    requestsOf "addNote" rest = map (fun c => addNoteRequest c DEFAULT_DECK) five.
Proof.
  apply (export_creates_deck_once Bridge.State (Bridge.fetch always always)
           DEFAULT_DECK (Bridge.hasDeck DEFAULT_DECK) five Bridge.empty).
  - apply bridge_ready.
  - reflexivity.
  - discriminate.
Defined.

(** C5: on every bridge an export runs [addCard] once for every card, in
    order and whatever the runs before returned, and its outcome counts
    the runs that returned true as [success] and those that returned false
    as [failed].  Against a bridge that handles the deck, every such run
    issues the [addNote] of its card, and the two counts are the number of
    notes the bridge accepted and the number of notes it did not. *)
Theorem export_counts_every_card :
  forall (W : Type) (fetch : W -> AnkiConnectRequest -> W * option HttpResponse)
         (deck : string) (cards : list AnkiCard) (w : W),
    exists runs w',
      CardRuns fetch deck w cards runs w' /\
      length runs = length cards /\
      addCards fetch cards deck w =
        (w', concat (map fst runs),
         Ok {| success := succeeded runs; failed := failing runs |}) /\
      forall hasDeck : W -> bool,
        DeckReady fetch deck hasDeck ->
        requestsOf "addNote" (concat (map fst runs))
          = map (fun c => addNoteRequest c deck) cards /\
        succeeded runs = Z.of_nat (length (notesAccepted (concat (map fst runs)))) /\
        failing runs = Z.of_nat (length (notesRefused (concat (map fst runs)))).
Proof.
  intros W fetch deck cards w.
  destruct (addCards_runs fetch cards deck w) as (runs & w' & Hruns & Hlen & Hrun).
  exists runs, w'.
  split; [exact Hruns|]. split; [exact Hlen|]. split; [exact Hrun|].
  intros hasDeck ready.
  destruct (addCards_ready fetch deck hasDeck ready cards w)
    as (w2 & t & tally & Hrun2 & Hnotes & _ & _ & Hs & Hf).
  rewrite Hrun in Hrun2. injection Hrun2 as _ <- <-.
  repeat split; assumption.
Qed.

(** Two of five notes are refused, the second and the fourth: all five
    notes are sent and the outcome is three and two. *)
Lemma export_counts_every_card_witness :
  exists runs w',
    addCards (Bridge.fetch always notSecondNorFourth) five DEFAULT_DECK Bridge.empty
      = (w', concat (map fst runs),
         Ok {| success := succeeded runs; failed := failing runs |}) /\
    length runs = 5%nat /\
    requestsOf "addNote" (concat (map fst runs))
      = map (fun c => addNoteRequest c DEFAULT_DECK) five /\
    succeeded runs = Z.of_nat (length (notesAccepted (concat (map fst runs)))) /\
    failing runs = Z.of_nat (length (notesRefused (concat (map fst runs)))).
Proof.
  destruct (export_counts_every_card Bridge.State
              (Bridge.fetch always notSecondNorFourth) DEFAULT_DECK five
              Bridge.empty) as (runs & w' & _ & Hlen & Hrun & Hready).
  destruct (Hready (Bridge.hasDeck DEFAULT_DECK)
              (bridge_ready notSecondNorFourth DEFAULT_DECK))
    as (Hnotes & Hs & Hf).
  exists runs, w'. repeat split; assumption.
Defined.

(** The example of the specification: two failures out of five cards give
    three successes and two failures, after five [addNote] calls. *)
Example two_of_five_fail :
  let run := addCards (Bridge.fetch always notSecondNorFourth) five
               DEFAULT_DECK Bridge.empty in
  resultOf run = Ok {| success := 3; failed := 2 |} /\
  length (requestsOf "addNote" (traceOf run)) = 5%nat /\
  map (fun x => accepted x)
      (filter (fun x => String.eqb (action (fst x)) "addNote") (traceOf run))
    = [true; false; true; false; true].
Proof. vm_compute. repeat split. Qed.


(** The tally when the bridge is not running: every card fails. *)
Example offline_export :
  resultOf (addCards Bridge.offline five DEFAULT_DECK tt)
    = Ok {| success := 0; failed := 5 |}.
Proof. vm_compute. reflexivity. Qed.

End FlashcardExport.

(* ================================================================== *)
(** ** The notes sent to the bridge *)

Module CardNotes.
Import Js Shared AnkiService AnkiFacts JsFacts Fixtures.

Ltac find_spliced :=
  repeat first [apply str_includes_here | apply str_includes_skip].

(** Both sides of every card show its word; the back also shows the text,
    the translation and the category of the phrase. *)
Lemma formatCard_shows (card : AnkiCard) :
  str_includes (word card) (fst (formatCard card)) = true /\
  str_includes (word card) (snd (formatCard card)) = true /\
  str_includes (text (phrase card)) (snd (formatCard card)) = true /\
  str_includes (translation (phrase card)) (snd (formatCard card)) = true /\
  str_includes (category (phrase card)) (snd (formatCard card)) = true.
Proof.
  cbn [formatCard fst snd]. unfold front, back.
  repeat split; find_spliced.
Qed.

(** C8, counterexample: the front of the casa card does not contain the
    category, so the two fragments do not both contain both strings. *)
Lemma casa_front_lacks_category :
  ~ (str_includes "casa" (fst (formatCard casa)) = true /\
     str_includes "nouns" (fst (formatCard casa)) = true /\
     str_includes "casa" (snd (formatCard casa)) = true /\
     str_includes "nouns" (snd (formatCard casa)) = true).
Proof. vm_compute. intros (_ & H & _). discriminate H. Qed.

(** C8 (as the code has it): for the casa card the front and the back both
    contain the word, the back contains the category, and the front does
    not. *)
Theorem casa_is_formatted :
  str_includes "casa" (fst (formatCard casa)) = true /\
  str_includes "casa" (snd (formatCard casa)) = true /\
  str_includes "nouns" (snd (formatCard casa)) = true /\
  str_includes "nouns" (fst (formatCard casa)) = false.
Proof. vm_compute. repeat split. Qed.



(** The tag of a capitalised word is in lower case. *)
Example dos_tags :
  noteField "tags" (addNoteRequest (number "Dos" "two") DEFAULT_DECK)
    = Some (JArr [JStr "exemplar"; JStr "vocabulary"; JStr "dos"]).
Proof. reflexivity. Qed.

End CardNotes.

(* ================================================================== *)
(** ** Search and page change *)

Module SearchSession.
Import Js Shared App JsFacts Fixtures.

Section Search.

Context {E : Type}.
Variable api : ElectronAPI E.

(** A search of a word that is not blank, by the outcome of the history
    call. *)
Lemma handleSearch_history_rejected (word : string) (s : AppState) (e : E)
    (reason : string) :
  isBlank word = false ->
  snd (addSearch api e word) = Rejected reason ->
  let '(s', e', calls) := handleSearch api word s e in
  calls = [AddSearch word (Rejected reason)] /\
  e' = fst (addSearch api e word) /\
  searchResult s' = searchResult s /\
  paginatedImages s' = None /\
  explanation s' = None /\
  isLoading s' = false /\
  isImagesLoading s' = false.
Proof.
  intros Hw Hh. unfold handleSearch. rewrite (trim_not_blank word Hw).
  cbn [negb]. destruct (addSearch api e word) as [e1 history].
  cbn [snd] in Hh. subst history. cbn. repeat split.
Qed.

Lemma handleSearch_history_fulfilled (word : string) (s : AppState) (e : E) :
  isBlank word = false ->
  snd (addSearch api e word) = Fulfilled tt ->
  exists images phrases wordExplanation,
    let '(s', e', calls) := handleSearch api word s e in
    calls = [AddSearch word (Fulfilled tt);
             SearchImages word {| page := 1; perPage := 6 |} images;
             GeneratePhrases word phrases;
             GenerateExplanation word wordExplanation] /\
    paginatedImages s' = Some (imagesOr images) /\
    searchResult s' =
      Some {| SearchResult.word := word;
              SearchResult.images := PaginatedImageResult.images (imagesOr images);
              SearchResult.phrases := phrasesOr phrases |} /\
    explanation s' = explanationOr wordExplanation /\
    isLoading s' = false /\
    isImagesLoading s' = false.
Proof.
  intros Hw Hh. unfold handleSearch. rewrite (trim_not_blank word Hw).
  cbn [negb]. destruct (addSearch api e word) as [e1 history].
  cbn [snd] in Hh. subst history.
  destruct (searchImages api e1 word _) as [e2 images].
  destruct (generatePhrases api e2 word) as [e3 phrases].
  destruct (generateExplanation api e3 word) as [e4 wordExplanation].
  exists images, phrases, wordExplanation. cbn. repeat split.
Qed.

End Search.

(** The card creator only opens on a selection that is not empty: the
    export is never started without a phrase. *)
Lemma creator_needs_a_phrase (s : AppState) :
  showAnkiCardCreator s = false ->
  showAnkiCardCreator (handleCreateAnkiCards s) = true ->
  selectedPhrases s <> [].
Proof.
  unfold handleCreateAnkiCards. intros Hs.
  destruct (selectedPhrases s); cbn; [congruence | discriminate].
Qed.

(** *** Sessions of page changes *)

(** The guard drops the request: no lookup, no change. *)
Lemma guarded_begin (page : Z) (s : AppState) :
  guarded s = true -> handlePageChange_begin page s = None.
Proof. unfold guarded, handlePageChange_begin. intros ->. reflexivity. Qed.

Lemma guarded_step (page : Z) (x : Session) :
  guarded (ui x) = true -> step x (PageChange page) = x.
Proof. intros H. cbn. rewrite (guarded_begin page _ H). reflexivity. Qed.

(** After a click the guard is up, whether the click was taken or not. *)
Lemma guarded_after_click (page : Z) (x : Session) :
  guarded (ui (step x (PageChange page))) = true.
Proof.
  cbn. unfold handlePageChange_begin.
  destruct (negb (truthy_str (currentWord (ui x))) || isImagesLoading (ui x)) eqn:G.
  - exact G.
  - cbn. unfold guarded. cbn. apply orb_true_r.
Qed.

Lemma guarded_clicks (pages : list Z) (x : Session) :
  guarded (ui x) = true -> run (map PageChange pages) x = x.
Proof.
  intros G. induction pages as [|p ps IH]; [reflexivity|].
  cbn [map run fold_left]. rewrite (guarded_step p x G). exact IH.
Qed.

Lemma tracked_step (x : Session) (ev : Event) :
  isSearch ev = false -> tracked x -> tracked (step x ev).
Proof.
  intros Hev T. destruct ev as [page | outcome | word answers];
    [| | discriminate Hev]; cbn.
  - unfold handlePageChange_begin.
    destruct (negb (truthy_str (currentWord (ui x))) || isImagesLoading (ui x)) eqn:G;
      [exact T|].
    apply orb_false_elim in G as [_ G].
    destruct T as [[Hq _] | (call & _ & Hl)]; [|congruence].
    right. eexists. cbn. rewrite Hq. split; reflexivity.
  - destruct T as [[Hq Hl] | (call & Hq & Hl)]; rewrite Hq.
    + left. split; assumption.
    + left. cbn. split; [reflexivity|]. destruct outcome; reflexivity.
Qed.

Lemma tracked_run (evs : list Event) :
  forallb (fun ev => negb (isSearch ev)) evs = true ->
  forall x : Session, tracked x -> tracked (run evs x).
Proof.
  induction evs as [|ev evs IH]; intros Hevs x T; [exact T|].
  cbn [forallb] in Hevs. apply andb_prop in Hevs as [Hev Hevs].
  apply negb_true_iff in Hev.
  cbn [run fold_left]. apply (IH Hevs), tracked_step; assumption.
Qed.



(** With the images down the phrases and the explanation still arrive. *)
Example casa_without_images :
  let s := fst (fst (handleSearch (scripted imagesDown) "casa" initial tt)) in
  searchResult s =
    Some {| SearchResult.word := "casa"; SearchResult.images := [];
            SearchResult.phrases := [miCasa] |} /\
  explanation s = Some "house".
Proof. vm_compute. split; reflexivity. Qed.






(** A session on the results of casa, nothing pending. *)
Lemma start_is_quiet :
  quiet {| ui := shown; inflight := []; issued := [] |}.
Proof. split; reflexivity. Qed.

(** In a session without searches that starts with nothing pending, at
    most one image lookup is pending at any time and the in-flight flag is
    up while it is.  A page change requested while a lookup is pending, or
    while the current word is empty, is dropped: the session is unchanged
    and the handler makes no call.  Further requests made before the lookup
    settles change nothing either: the session ends as if only the first
    request had been made.  When the lookup rejects, the paginated result
    and the merged result stay as they were; when it fulfils, the paginated
    result is replaced and the merged result gets the new images and keeps
    its word and its phrases. *)
Theorem page_change_is_guarded :
  forall (E : Type) (api : ElectronAPI E) (e : E)
         (x0 : Session) (evs : list Event) (page : Z) (pages : list Z)
         (outcome : Settled PaginatedImageResult.t) (reason : string)
         (imageResult : PaginatedImageResult.t),
    quiet x0 ->
    forallb (fun ev => negb (isSearch ev)) evs = true ->
    let x := run evs x0 in
    (length (inflight x) <= 1)%nat /\
    (inflight x <> [] -> isImagesLoading (ui x) = true) /\
    (inflight x <> [] \/ currentWord (ui x) = "" ->
     step x (PageChange page) = x /\
     handlePageChange api page (ui x) e = (ui x, e, [])) /\
    run (PageChange page :: map PageChange pages ++ [ImagesSettled outcome]) x
      = run [PageChange page; ImagesSettled outcome] x /\
    paginatedImages (handlePageChange_resume (Rejected reason) (ui x))
      = paginatedImages (ui x) /\
    searchResult (handlePageChange_resume (Rejected reason) (ui x))
      = searchResult (ui x) /\
    paginatedImages (handlePageChange_resume (Fulfilled imageResult) (ui x))
      = Some imageResult /\
    searchResult (handlePageChange_resume (Fulfilled imageResult) (ui x))
      = match searchResult (ui x) with
        | Some prev =>
            Some {| SearchResult.word := SearchResult.word prev;
                    SearchResult.images := PaginatedImageResult.images imageResult;
                    SearchResult.phrases := SearchResult.phrases prev |}
        | None => None
        end.
Proof.
  intros E api e x0 evs page pages outcome reason imageResult Hq Hevs x.
  assert (T : tracked x) by (apply tracked_run; [exact Hevs | left; exact Hq]).
  split; [|split; [|split; [|split]]].
  - destruct T as [[-> _] | (call & -> & _)]; cbn; lia.
  - destruct T as [[-> _] | (call & _ & Hl)]; [congruence | intros _; exact Hl].
  - intros H.
    assert (G : guarded (ui x) = true).
    { unfold guarded. destruct H as [H | H].
      - destruct T as [[Hi _] | (call & _ & Hl)]; [congruence|].
        rewrite Hl. apply orb_true_r.
      - rewrite H. reflexivity. }
    split; [apply guarded_step, G|].
    unfold handlePageChange. rewrite (guarded_begin page _ G). reflexivity.
  - unfold run. cbn [fold_left]. rewrite fold_left_app.
    fold (run (map PageChange pages) (step x (PageChange page))).
    rewrite (guarded_clicks pages _ (guarded_after_click page x)).
    reflexivity.
  - repeat split.
Qed.

(** On the results of casa: page 2 is requested, then page 3 and page 1
    before the lookup of page 2 settles. *)
Example page_change_is_guarded_on_casa :
  let x := run [PageChange 2] {| ui := shown; inflight := []; issued := [] |} in
  (length (inflight x) <= 1)%nat /\
  (inflight x <> [] -> isImagesLoading (ui x) = true) /\
  (inflight x <> [] \/ currentWord (ui x) = "" ->
   step x (PageChange 3) = x /\
   handlePageChange (scripted allGood) 3 (ui x) tt = (ui x, tt, [])) /\
  run (PageChange 3 :: map PageChange [1; 2]
         ++ [ImagesSettled (Fulfilled (pageOf 2 ["c.jpg"]))]) x
    = run [PageChange 3; ImagesSettled (Fulfilled (pageOf 2 ["c.jpg"]))] x /\
  paginatedImages (handlePageChange_resume (Rejected "offline") (ui x))
    = paginatedImages (ui x) /\
  searchResult (handlePageChange_resume (Rejected "offline") (ui x))
    = searchResult (ui x) /\
  paginatedImages (handlePageChange_resume (Fulfilled (pageOf 2 ["c.jpg"])) (ui x))
    = Some (pageOf 2 ["c.jpg"]) /\
  searchResult (handlePageChange_resume (Fulfilled (pageOf 2 ["c.jpg"])) (ui x))
    = match searchResult (ui x) with
      | Some prev =>
          Some {| SearchResult.word := SearchResult.word prev;
                  SearchResult.images :=
                    PaginatedImageResult.images (pageOf 2 ["c.jpg"]);
                  SearchResult.phrases := SearchResult.phrases prev |}
      | None => None
      end.
Proof.
  apply (page_change_is_guarded unit (scripted allGood) tt
           {| ui := shown; inflight := []; issued := [] |} [PageChange 2]
           3 [1; 2] (Fulfilled (pageOf 2 ["c.jpg"])) "offline"
           (pageOf 2 ["c.jpg"])).
  - split; reflexivity.
  - reflexivity.
Qed.

(** Three clicks in a row issue one lookup, and its answer is the page
    shown; the phrases are those of the search. *)
Example second_click_is_dropped :
  let x := run [PageChange 2; PageChange 3; PageChange 1;
                ImagesSettled (Fulfilled (pageOf 2 ["c.jpg"]))]
             {| ui := shown; inflight := []; issued := [] |} in
  issued x = [("casa", {| page := 2; perPage := 6 |})] /\
  inflight x = [] /\
  paginatedImages (ui x) = Some (pageOf 2 ["c.jpg"]) /\
  searchResult (ui x) =
    Some {| SearchResult.word := "casa";
            SearchResult.images := [ {| thumbnail := "c.jpg" |} ];
            SearchResult.phrases := [miCasa] |} /\
  isImagesLoading (ui x) = false.
Proof. vm_compute. repeat split. Qed.

(** C7, at the failing input: on the results of casa page 2 is requested,
    and a search of perro runs to completion before that lookup settles.
    The search clears the in-flight flag while the lookup is still pending,
    so the next page change is not dropped: two lookups are pending at
    once, and both are applied when they settle, the images of casa being
    spliced into the result of perro first. *)
Theorem search_lowers_the_guard :
  let start := {| ui := shown; inflight := []; issued := [] |} in
  let x := run [PageChange 2; Search "perro" perroFound] start in
  let y := run [PageChange 3; ImagesSettled (Fulfilled (pageOf 2 ["c.jpg"]))] x in
  let z := step y (ImagesSettled (Fulfilled (pageOf 3 ["p.jpg"]))) in
  inflight x = [("casa", {| page := 2; perPage := 6 |})] /\
  isImagesLoading (ui x) = false /\
  step x (PageChange 3) <> x /\
  inflight (step x (PageChange 3)) =
    [("casa", {| page := 2; perPage := 6 |});
     ("perro", {| page := 3; perPage := 6 |})] /\
  searchResult (ui y) =
    Some {| SearchResult.word := "perro";
            SearchResult.images := [ {| thumbnail := "c.jpg" |} ];
            SearchResult.phrases := [miPerro] |} /\
  paginatedImages (ui y) = Some (pageOf 2 ["c.jpg"]) /\
  paginatedImages (ui z) = Some (pageOf 3 ["p.jpg"]) /\
  issued z = [("casa", {| page := 2; perPage := 6 |});
              ("perro", {| page := 3; perPage := 6 |})].
Proof.
  vm_compute. repeat split. intros H. discriminate H.
Qed.

End SearchSession.

(* ================================================================== *)
(** ** More on the card formatter and the audio data *)

Module CardText.
Import Js Shared AnkiService JsFacts Fixtures.

Lemma prefix_app_l (x a b : string) :
  String.prefix x a = true -> String.prefix x (a ++ b) = true.
Proof.
  revert a. induction x as [|c x IH]; intros a H;
    [destruct (a ++ b); reflexivity|].
  destruct a as [|d a]; [discriminate H|].
  cbn in *. destruct (ascii_dec c d); [apply IH, H | discriminate H].
Qed.

Lemma str_includes_app_l (x a b : string) :
  str_includes x a = true -> str_includes x (a ++ b) = true.
Proof.
  induction a as [|c a IH]; intros H.
  - cbn in H. rewrite orb_false_r in H. destruct x; [|discriminate H].
    destruct b; reflexivity.
  - unfold str_includes in H; fold str_includes in H.
    apply orb_prop in H as [H | H].
    + apply str_includes_prefix. apply (prefix_app_l x (String c a) b H).
    + cbn [String.append]. unfold str_includes; fold str_includes.
      rewrite (IH H). apply orb_true_r.
Qed.

Ltac find_part :=
  repeat first [ apply str_includes_here
               | apply str_includes_app_l; solve [find_part]
               | apply str_includes_skip ].

(** The optional parts of a card show where the templates put them: the
    thumbnail of the image on both sides, the explanation and the audio
    source on the back. *)
Theorem formatCard_optional_parts :
  forall (card : AnkiCard),
    (forall img, image card = Some img ->
       str_includes (thumbnail img) (fst (formatCard card)) = true /\
       str_includes (thumbnail img) (snd (formatCard card)) = true) /\
    (truthy_str (explanation card) = true ->
       str_includes (explanation card) (snd (formatCard card)) = true) /\
    (forall url, audioUrl card = Some url -> truthy_str url = true ->
       str_includes url (snd (formatCard card)) = true).
Proof.
  intros card. cbn [formatCard fst snd]. unfold front, back.
  split; [|split].
  - intros img H. unfold imageHtml. rewrite H. split; find_part.
  - intros H. unfold explanationHtml. rewrite H. find_part.
  - intros url H Hu. unfold audioHtml. rewrite H. cbn [truthy_opt]. rewrite Hu.
    find_part.
Qed.

Lemma formatCard_optional_parts_witness :
  str_includes "https://img.example/gato.jpg" (fst (formatCard gato)) = true /\
  str_includes "https://img.example/gato.jpg" (snd (formatCard gato)) = true /\
  str_includes "a small domestic feline" (snd (formatCard gato)) = true /\
  str_includes "data:audio/ogg;base64,T2dnUw" (snd (formatCard gato)) = true.
Proof.
  destruct (formatCard_optional_parts gato) as (Himg & Hexp & Haudio).
  destruct (Himg _ eq_refl) as [H1 H2].
  split; [exact H1|]. split; [exact H2|].
  split; [exact (Hexp eq_refl) | exact (Haudio _ eq_refl eq_refl)].
Defined.

Lemma append_assoc (a b c : string) : (a ++ b) ++ c = a ++ (b ++ c).
Proof. induction a as [|x a IH]; cbn; [reflexivity | rewrite IH; reflexivity]. Qed.

Lemma dropPrefix_app (p s : string) : dropPrefix p (p ++ s) = Some s.
Proof.
  induction p as [|c p IH]; cbn; [reflexivity|].
  rewrite Ascii.eqb_refl. exact IH.
Qed.

Lemma dropPrefix_split (p s r : string) : dropPrefix p s = Some r -> s = p ++ r.
Proof.
  revert s. induction p as [|c p IH]; intros s H; cbn in *.
  - congruence.
  - destruct s as [|d s]; [discriminate H|].
    destruct (Ascii.eqb c d) eqn:E; [|discriminate H].
    apply Ascii.eqb_eq in E. subst d. rewrite (IH s H). reflexivity.
Qed.

Lemma spanUntil_split (c : ascii) (s : string) :
  s = fst (spanUntil c s) ++ snd (spanUntil c s).
Proof.
  induction s as [|a s IH]; cbn; [reflexivity|].
  destruct (Ascii.eqb a c); [reflexivity|].
  destruct (spanUntil c s) as [taken left]. cbn in *. rewrite <- IH. reflexivity.
Qed.

Lemma spanUntil_stop (c : ascii) (a rest : string) :
  lacks c a = true ->
  spanUntil c (a ++ String c rest) = (a, String c rest).
Proof.
  induction a as [|d a IH]; cbn; intros H.
  - rewrite Ascii.eqb_refl. reflexivity.
  - apply andb_prop in H as [Hd Ha]. apply negb_true_iff in Hd.
    rewrite Hd, (IH Ha). reflexivity.
Qed.

(** The data sent to [storeMediaFile] for a base64 data URL of an audio
    type is the payload of the URL: the prefix up to the comma is cut. *)
Theorem stripAudioDataUrl_payload :
  forall (mime data : string),
    truthy_str mime = true ->
    lacks ";" mime = true ->
    stripAudioDataUrl ("data:audio/" ++ mime ++ ";base64," ++ data) = data.
Proof.
  intros mime data Hm Hl. unfold stripAudioDataUrl.
  rewrite dropPrefix_app.
  change (mime ++ ";base64," ++ data) with (mime ++ String ";" ("base64," ++ data)).
  rewrite (spanUntil_stop ";" mime _ Hl).
  destruct mime; [discriminate Hm|].
  change (String ";" ("base64," ++ data)) with (";base64," ++ data).
  rewrite dropPrefix_app. reflexivity.
Qed.

Lemma stripAudioDataUrl_payload_witness :
  stripAudioDataUrl ("data:audio/" ++ "mpeg" ++ ";base64," ++ "AAAA") = "AAAA".
Proof.
  apply (stripAudioDataUrl_payload "mpeg" "AAAA"); reflexivity.
Defined.

(** Whatever the audio URL, the data sent to [storeMediaFile] is the end of
    it: the replacement only ever cuts a prefix, and cuts nothing from a
    URL that does not start with the audio data scheme. *)
Theorem stripAudioDataUrl_suffix :
  forall (url : string),
    (exists cut, url = cut ++ stripAudioDataUrl url) /\
    (String.prefix "data:audio/" url = false -> stripAudioDataUrl url = url).
Proof.
  intros url. split.
  - unfold stripAudioDataUrl.
    destruct (dropPrefix "data:audio/" url) as [rest|] eqn:H1;
      [|exists ""; reflexivity].
    pose proof (spanUntil_split ";" rest) as H2.
    destruct (spanUntil ";" rest) as [mime tail]. cbn [fst snd] in H2.
    destruct mime as [|m mime]; [exists ""; reflexivity|].
    destruct (dropPrefix ";base64," tail) as [data|] eqn:H3;
      [|exists ""; reflexivity].
    apply dropPrefix_split in H1, H3. subst url rest tail.
    exists ("data:audio/" ++ String m mime ++ ";base64,").
    rewrite !append_assoc. reflexivity.
  - intros H. unfold stripAudioDataUrl.
    destruct (dropPrefix "data:audio/" url) as [rest|] eqn:H1; [|reflexivity].
    apply dropPrefix_split in H1. subst url.
    rewrite prefix_refl_app in H. discriminate H.
Qed.

(** A plain link is sent as it is. *)
Lemma stripAudioDataUrl_suffix_witness :
  stripAudioDataUrl "https://audio.example/gato.mp3"
    = "https://audio.example/gato.mp3".
Proof.
  apply (stripAudioDataUrl_suffix "https://audio.example/gato.mp3").
  reflexivity.
Defined.

End CardText.

(* ================================================================== *)
(** ** More on the AnkiConnect client *)

Module BridgeClient.
Import Js Shared AnkiService AnkiFacts Fixtures.

(** [testConnection] never throws and makes one exchange, the version
    request.  It answers true only when the bridge replied with a null
    error, and for a numeric result exactly when the result is at least the
    API version 6. *)
Theorem testConnection_answer :
  forall (W : Type) (fetch : W -> AnkiConnectRequest -> W * option HttpResponse)
         (coerced : JVal -> Z -> bool) (w : W),
    exists b,
      testConnection fetch coerced w =
        (fst (fetch w versionRequest),
         [(versionRequest, snd (fetch w versionRequest))], Ok b) /\
      (b = true ->
       exists body,
         received (snd (fetch w versionRequest)) = Ok body /\ error body = None) /\
      (forall body n,
         received (snd (fetch w versionRequest)) = Ok body ->
         error body = None -> result body = JNum n ->
         b = (6 <=? n)).
Proof.
  intros W fetch coerced w.
  unfold testConnection, try_catch, bind. rewrite sendRequest_run.
  destruct (received (snd (fetch w versionRequest))) as [body|e]; cbn.
  - destruct (error body) eqn:He; eexists; (split; [reflexivity|]); split.
    + discriminate.
    + intros body' n H. injection H as <-. congruence.
    + intros _. exists body. split; [reflexivity | exact He].
    + intros body' n H _ Hr. injection H as <-. rewrite Hr. reflexivity.
  - eexists. split; [reflexivity|]. split; [discriminate|].
    intros body n H. discriminate H.
Qed.

(** A bridge of version 7 passes the test. *)
Lemma testConnection_answer_witness :
  resultOf (testConnection (Bridge.versioned 7) (fun _ _ => false) tt) = Ok true.
Proof.
  destruct (testConnection_answer unit (Bridge.versioned 7) (fun _ _ => false) tt)
    as (b & Hrun & _ & Hnum).
  rewrite Hrun. unfold resultOf. cbn [snd].
  rewrite (Hnum {| result := JNum 7; error := None |} 7 eq_refl eq_refl eq_refl).
  reflexivity.
Defined.

(** An older bridge, version 5, fails the test; version 6 passes it; no
    bridge at all fails it. *)
Example testConnection_versions :
  resultOf (testConnection (Bridge.versioned 5) (fun _ _ => false) tt) = Ok false /\
  resultOf (testConnection (Bridge.versioned 6) (fun _ _ => false) tt) = Ok true /\
  resultOf (testConnection Bridge.offline (fun _ _ => false) tt) = Ok false.
Proof. vm_compute. repeat split. Qed.

(** The three name queries never throw and make one exchange each.  They
    pass the result of the bridge on when it replied with a null error, and
    yield the empty array when the fetch failed, the status was not ok, the
    body was not JSON or the reply carries an error. *)
Theorem name_queries_degrade :
  forall (W : Type) (fetch : W -> AnkiConnectRequest -> W * option HttpResponse)
         (modelName : string) (w : W),
    getDeckNames fetch w =
      (fst (fetch w deckNamesRequest),
       [(deckNamesRequest, snd (fetch w deckNamesRequest))],
       Ok (namesOf (snd (fetch w deckNamesRequest)))) /\
    getModelNames fetch w =
      (fst (fetch w modelNamesRequest),
       [(modelNamesRequest, snd (fetch w modelNamesRequest))],
       Ok (namesOf (snd (fetch w modelNamesRequest)))) /\
    getModelFieldNames fetch modelName w =
      (fst (fetch w (modelFieldNamesRequest modelName)),
       [(modelFieldNamesRequest modelName,
         snd (fetch w (modelFieldNamesRequest modelName)))],
       Ok (namesOf (snd (fetch w (modelFieldNamesRequest modelName))))) /\
    (forall reply body,
       received reply = Ok body -> error body = None ->
       namesOf reply = result body) /\
    (forall reply,
       (forall body, received reply = Ok body -> error body <> None) ->
       namesOf reply = JArr []).
Proof.
  intros W fetch modelName w.
  split; [apply getDeckNames_run|].
  split; [|split; [|split]].
  - unfold getModelNames, try_catch, bind. rewrite sendRequest_run.
    unfold namesOf, ret. destruct (received _); reflexivity.
  - unfold getModelFieldNames, try_catch, bind. rewrite sendRequest_run.
    unfold namesOf, ret. destruct (received _); reflexivity.
  - intros reply body Hr He. unfold namesOf. rewrite Hr, He. reflexivity.
  - intros reply H. unfold namesOf.
    destruct (received reply) as [body|e]; [|reflexivity].
    destruct (error body) eqn:He; [reflexivity|].
    exfalso. exact (H body eq_refl He).
Qed.

(** No bridge: the model names are the empty array. *)
Lemma name_queries_degrade_witness :
  resultOf (getModelNames Bridge.offline tt) = Ok (JArr []) /\
  resultOf (getModelFieldNames Bridge.offline "Basic" tt) = Ok (JArr []).
Proof.
  destruct (name_queries_degrade unit Bridge.offline "Basic" tt)
    as (_ & H2 & H3 & _ & Hfail).
  rewrite H2, H3. unfold resultOf. cbn [snd].
  rewrite !Hfail; [split; reflexivity | | ]; intros body H; discriminate H.
Defined.

Section AnyBridge.

Context {W : Type}.
Variable fetch : W -> AnkiConnectRequest -> W * option HttpResponse.

(** A run of [addCard] holds at most one [addNote], and returns true
    exactly when the bridge accepted it. *)
Lemma addCard_note (card : AnkiCard) (deck : string) (w : W) :
  exists w' t b,
    addCard fetch card deck w = (w', t, Ok b) /\
    (requestsOf "addNote" t = [] \/
     requestsOf "addNote" t = [addNoteRequest card deck]) /\
    length (notesAccepted t) = (if b then 1 else 0)%nat.
Proof.
  run_addCard; (do 3 eexists; split; [reflexivity|]); read_trace;
    split; auto.
Qed.

(** A run of [addCard] queries the deck names once and makes between one
    and four exchanges. *)
Lemma addCard_size (card : AnkiCard) (deck : string) (w : W) :
  exists w' t b,
    addCard fetch card deck w = (w', t, Ok b) /\
    length (requestsOf "deckNames" t) = 1%nat /\
    (1 <= length t <= 4)%nat.
Proof.
  run_addCard; (do 3 eexists; split; [reflexivity|]); read_trace;
    cbn [length]; (split; [reflexivity | lia]).
Qed.

(** A run of [addCard] creates the deck exactly when the names it got do
    not include it. *)
Lemma addCard_creates (card : AnkiCard) (deck : string) (w : W) :
  exists w' t b,
    addCard fetch card deck w = (w', t, Ok b) /\
    requestsOf "createDeck" t =
      match includesValue (namesOf (snd (fetch w deckNamesRequest))) deck with
      | Some false => [createDeckRequest deck]
      | _ => []
      end.
Proof.
  run_addCard; (do 3 eexists; split; [reflexivity|]); read_trace; reflexivity.
Qed.

(** A run of [addCard] stores media only after an accepted note, for a
    card with an audio URL. *)
Lemma addCard_media (card : AnkiCard) (deck : string) (w : W) :
  exists w' t b,
    addCard fetch card deck w = (w', t, Ok b) /\
    forall rq,
      In rq (requestsOf "storeMediaFile" t) ->
      b = true /\
      length (notesAccepted t) = 1%nat /\
      exists url,
        audioUrl card = Some url /\ truthy_str url = true /\
        rq = storeMediaFileRequest url (word card).
Proof.
  run_addCard; (do 3 eexists; split; [reflexivity|]); read_trace;
    intros rq Hin; cbn [In] in Hin; try contradiction;
    destruct Hin as [<- | []];
    (split; [reflexivity|]); (split; [reflexivity|]);
    match goal with
    | H : truthy_opt (audioUrl card) && _ = true |- _ =>
        apply andb_prop in H as [H _]
    end;
    destruct (audioUrl card) as [url|]; try discriminate;
    exists url; repeat split; assumption.
Qed.

End AnyBridge.

(** On every bridge a card counts as a success exactly when its [addNote]
    was accepted: the successes of an export are the accepted notes of its
    trace, the failures are the other cards, and no card is sent twice. *)
Theorem success_is_accepted_notes :
  forall (W : Type) (fetch : W -> AnkiConnectRequest -> W * option HttpResponse)
         (deck : string) (cards : list AnkiCard) (w : W),
    exists w' t tally,
      addCards fetch cards deck w = (w', t, Ok tally) /\
      success tally = Z.of_nat (length (notesAccepted t)) /\
      failed tally = Z.of_nat (length cards) - success tally /\
      (length (requestsOf "addNote" t) <= length cards)%nat.
Proof.
  intros W fetch deck cards. induction cards as [|card rest IH]; intros w.
  - exists w, [], {| success := 0; failed := 0 |}. cbn. repeat split; lia.
  - destruct (addCard_note fetch card deck w) as (w1 & t1 & b & Hc & Hn & Ha).
    destruct (IH w1) as (w2 & t2 & tally & Hr & Hs & Hf & Hl).
    rewrite (addCards_cons fetch _ _ _ _ _ _ _ _ _ _ Hc Hr).
    do 3 eexists. split; [reflexivity|].
    rewrite notesAccepted_app, requestsOf_app, !length_app, Ha.
    cbn [success failed length]. rewrite Nat2Z.inj_succ.
    repeat split.
    + destruct b; lia.
    + destruct b; lia.
    + destruct Hn as [-> | ->]; cbn [length]; lia.
Qed.

(** The exchanges of [addCard] are always one of six sequences: the deck
    names come first, a [createDeck] can only follow them directly, an
    [addNote] comes after those, and a [storeMediaFile] only after an
    [addNote]. *)
Theorem addCard_exchanges :
  forall (W : Type) (fetch : W -> AnkiConnectRequest -> W * option HttpResponse)
         (card : AnkiCard) (deck : string) (w : W),
    In (actionsOf (traceOf (addCard fetch card deck w)))
       [ ["deckNames"];
         ["deckNames"; "createDeck"];
         ["deckNames"; "addNote"];
         ["deckNames"; "addNote"; "storeMediaFile"];
         ["deckNames"; "createDeck"; "addNote"];
         ["deckNames"; "createDeck"; "addNote"; "storeMediaFile"] ].
Proof.
  intros W fetch card deck w. run_addCard;
    unfold traceOf, actionsOf; cbn [fst snd map]; rewrite ?action_addNote;
    cbn [action deckNamesRequest createDeckRequest storeMediaFileRequest In];
    repeat first [left; reflexivity | right].
Qed.

(** [addCard] calls [createDeck] exactly when the names it got do not
    include the deck; names it could not get count as an empty list, so
    the deck is created then, too. *)
Theorem createDeck_when_unlisted :
  forall (W : Type) (fetch : W -> AnkiConnectRequest -> W * option HttpResponse)
         (card : AnkiCard) (deck : string) (w : W),
    requestsOf "createDeck" (traceOf (addCard fetch card deck w)) =
      match includesValue (namesOf (snd (fetch w deckNamesRequest))) deck with
      | Some false => [createDeckRequest deck]
      | _ => []
      end /\
    (received (snd (fetch w deckNamesRequest)) = Throw FetchFailed ->
     requestsOf "createDeck" (traceOf (addCard fetch card deck w))
       = [createDeckRequest deck]).
Proof.
  intros W fetch card deck w.
  destruct (addCard_creates fetch card deck w) as (w' & t & b & Hrun & Hcreate).
  rewrite Hrun. unfold traceOf. cbn [fst snd]. split; [exact Hcreate|].
  intros H. rewrite Hcreate. unfold namesOf. rewrite H. reflexivity.
Qed.

(** With no bridge running the deck names cannot be had, and the deck is
    asked for. *)
Lemma createDeck_when_unlisted_witness :
  requestsOf "createDeck" (traceOf (addCard Bridge.offline casa DEFAULT_DECK tt))
    = [createDeckRequest DEFAULT_DECK].
Proof.
  apply (createDeck_when_unlisted unit Bridge.offline casa DEFAULT_DECK tt).
  reflexivity.
Defined.

(** When the bridge serves something that is neither an array nor a string
    as deck names, [addCard] fails the card after that one exchange: no
    deck is created and no note is sent. *)
Theorem malformed_names_fail_the_card :
  forall (W : Type) (fetch : W -> AnkiConnectRequest -> W * option HttpResponse)
         (card : AnkiCard) (deck : string) (w : W),
    includesValue (namesOf (snd (fetch w deckNamesRequest))) deck = None ->
    addCard fetch card deck w =
      (fst (fetch w deckNamesRequest),
       [(deckNamesRequest, snd (fetch w deckNamesRequest))], Ok false).
Proof.
  intros W fetch card deck w H. revert H.
  run_addCard; intros H; first [discriminate H | reflexivity].
Qed.

Lemma malformed_names_fail_the_card_witness :
  addCard Bridge.nulls casa DEFAULT_DECK tt =
    (fst (Bridge.nulls tt deckNamesRequest),
     [(deckNamesRequest, snd (Bridge.nulls tt deckNamesRequest))], Ok false).
Proof.
  apply (malformed_names_fail_the_card unit Bridge.nulls casa DEFAULT_DECK tt).
  reflexivity.
Defined.

(** A [storeMediaFile] request is only made for a card whose audio URL is
    not empty, after its note was accepted; it carries that URL and the
    word of the card, and whatever the bridge answers to it, [addCard]
    returns true. *)
Theorem audio_follows_an_accepted_note :
  forall (W : Type) (fetch : W -> AnkiConnectRequest -> W * option HttpResponse)
         (card : AnkiCard) (deck : string) (w : W) (rq : AnkiConnectRequest),
    In rq (requestsOf "storeMediaFile" (traceOf (addCard fetch card deck w))) ->
    resultOf (addCard fetch card deck w) = Ok true /\
    length (notesAccepted (traceOf (addCard fetch card deck w))) = 1%nat /\
    exists url,
      audioUrl card = Some url /\ truthy_str url = true /\
      rq = storeMediaFileRequest url (word card).
Proof.
  intros W fetch card deck w rq.
  destruct (addCard_media fetch card deck w) as (w' & t & b & Hrun & Hmedia).
  rewrite Hrun. unfold traceOf, resultOf. cbn [fst snd].
  intros Hin. destruct (Hmedia rq Hin) as (-> & Hacc & Hurl).
  repeat split; assumption.
Qed.

Lemma audio_follows_an_accepted_note_witness :
  resultOf (addCard (Bridge.fetch always always) gato DEFAULT_DECK Bridge.empty)
    = Ok true /\
  length (notesAccepted
            (traceOf (addCard (Bridge.fetch always always) gato DEFAULT_DECK
                        Bridge.empty))) = 1%nat /\
  exists url,
    audioUrl gato = Some url /\ truthy_str url = true /\
    storeMediaFileRequest "data:audio/ogg;base64,T2dnUw" "Gato"
      = storeMediaFileRequest url (word gato).
Proof.
  apply (audio_follows_an_accepted_note Bridge.State (Bridge.fetch always always)
           gato DEFAULT_DECK Bridge.empty
           (storeMediaFileRequest "data:audio/ogg;base64,T2dnUw" "Gato")).
  vm_compute. left. reflexivity.
Defined.

(** The file stored for the card of Gato. *)
Example gato_media :
  storeMediaFileRequest "data:audio/ogg;base64,T2dnUw" "Gato" =
    {| action := "storeMediaFile"; version := 6;
       params := Some (JObj [("filename", JStr "Gato_audio.mp3");
                             ("data", JStr "T2dnUw")]) |}.
Proof. reflexivity. Qed.

(** An export of two lists in a row is the export of the first followed by
    the export of the second from the state the first leaves the bridge in:
    the traces follow each other and the tallies add up. *)
Theorem addCards_app :
  forall (W : Type) (fetch : W -> AnkiConnectRequest -> W * option HttpResponse)
         (deck : string) (first second : list AnkiCard) (w : W),
    exists w1 t1 tally1 w2 t2 tally2,
      addCards fetch first deck w = (w1, t1, Ok tally1) /\
      addCards fetch second deck w1 = (w2, t2, Ok tally2) /\
      addCards fetch (first ++ second) deck w =
        (w2, (t1 ++ t2)%list,
         Ok {| success := success tally1 + success tally2;
               failed := failed tally1 + failed tally2 |}).
Proof.
  intros W fetch deck first second.
  induction first as [|card rest IH]; intros w.
  - destruct (addCards_run fetch second deck w) as (w2 & t2 & tally2 & H2 & _).
    exists w, [], {| success := 0; failed := 0 |}, w2, t2, tally2.
    split; [reflexivity|]. split; [exact H2|].
    cbn [app success failed]. rewrite H2. destruct tally2; reflexivity.
  - destruct (addCard_run fetch card deck w) as (w0 & t0 & b & Hc & _).
    destruct (IH w0) as (w1 & t1 & tally1 & w2 & t2 & tally2 & H1 & H2 & H12).
    do 6 eexists. split; [|split].
    + rewrite (addCards_cons fetch _ _ _ _ _ _ _ _ _ _ Hc H1). reflexivity.
    + exact H2.
    + cbn [app]. rewrite (addCards_cons fetch _ _ _ _ _ _ _ _ _ _ Hc H12).
      rewrite app_assoc. cbn [success failed].
      do 3 f_equal; destruct b; lia.
Qed.

(** On every bridge an export queries the deck names once per card, and
    makes at least one and at most four exchanges per card. *)
Theorem export_queries_names_per_card :
  forall (W : Type) (fetch : W -> AnkiConnectRequest -> W * option HttpResponse)
         (deck : string) (cards : list AnkiCard) (w : W),
    length (requestsOf "deckNames" (traceOf (addCards fetch cards deck w)))
      = length cards /\
    (length cards <= length (traceOf (addCards fetch cards deck w))
     <= 4 * length cards)%nat.
Proof.
  intros W fetch deck cards. induction cards as [|card rest IH]; intros w.
  - cbn. lia.
  - destruct (addCard_size fetch card deck w) as (w1 & t1 & b & Hc & Hn & Hl).
    destruct (addCards_run fetch rest deck w1) as (w2 & t2 & tally & Hr & _).
    specialize (IH w1). rewrite Hr in IH. unfold traceOf in IH. cbn [fst snd] in IH.
    rewrite (addCards_cons fetch _ _ _ _ _ _ _ _ _ _ Hc Hr).
    unfold traceOf. cbn [fst snd].
    rewrite requestsOf_app, !length_app, Hn. cbn [length]. lia.
Qed.

(** When the deck-ensure step fails in every state of the bridge, an
    export sends no note at all: every card costs the two exchanges of
    that step and counts as failed. *)
Theorem export_without_deck :
  forall (W : Type) (fetch : W -> AnkiConnectRequest -> W * option HttpResponse)
         (deck : string) (cards : list AnkiCard) (w : W),
    (forall w0, ensureFails fetch deck w0 = true) ->
    exists w' t,
      addCards fetch cards deck w =
        (w', t, Ok {| success := 0; failed := Z.of_nat (length cards) |}) /\
      requestsOf "addNote" t = [] /\
      length t = (2 * length cards)%nat.
Proof.
  intros W fetch deck cards w H. revert w.
  induction cards as [|card rest IH]; intros w.
  - exists w, []. repeat split.
  - pose proof (addCard_ensure_fails fetch card deck w (H w)) as Hc.
    destruct (IH (fst (fetch (fst (fetch w deckNamesRequest))
                         (createDeckRequest deck))))
      as (w' & t & Hr & Hn & Hl).
    rewrite (addCards_cons fetch _ _ _ _ _ _ _ _ _ _ Hc Hr).
    do 2 eexists. split; [|split].
    + cbn [success failed length]. rewrite Nat2Z.inj_succ.
      do 3 f_equal; try lia.
    + rewrite requestsOf_app, Hn. reflexivity.
    + rewrite length_app, Hl. cbn [length]. lia.
Qed.

Lemma export_without_deck_witness :
  exists w' t,
    addCards Bridge.offline five DEFAULT_DECK tt =
      (w', t, Ok {| success := 0; failed := Z.of_nat (length five) |}) /\
    requestsOf "addNote" t = [] /\
    length t = (2 * length five)%nat.
Proof.
  apply (export_without_deck unit Bridge.offline DEFAULT_DECK five tt).
  intros w0. reflexivity.
Defined.

End BridgeClient.

(* ================================================================== *)
(** ** More on the component *)

Module Component.
Import Js Shared App JsFacts Fixtures.

Lemma trim_keeps_text (text : string) :
  isBlank text = false -> isBlank (trim text) = false.
Proof.
  intros H. destruct (trimStart_head text H) as (c & rest & E & Hc).
  unfold trim. rewrite E. cbn [trimEnd].
  destruct (trimEnd rest); [rewrite Hc|]; cbn [isBlank]; rewrite Hc; reflexivity.
Qed.

Lemma truthy_length (s : string) :
  truthy_str s = true -> (0 <? String.length s)%nat = true.
Proof. destruct s; [discriminate | reflexivity]. Qed.





(** On entering the Anki mode nothing is cleared, on leaving it both
    selections are; so a round trip through the mode, from either side,
    ends in the mode it started in with both selections empty. *)
Theorem anki_mode_round_trip :
  forall (s : AppState),
    (ankiMode s = false ->
     ankiMode (handleAnkiModeToggle s) = true /\
     selectedPhrases (handleAnkiModeToggle s) = selectedPhrases s /\
     selectedImages (handleAnkiModeToggle s) = selectedImages s) /\
    (ankiMode s = true ->
     ankiMode (handleAnkiModeToggle s) = false /\
     selectedPhrases (handleAnkiModeToggle s) = [] /\
     selectedImages (handleAnkiModeToggle s) = []) /\
    ankiMode (handleAnkiModeToggle (handleAnkiModeToggle s)) = ankiMode s /\
    selectedPhrases (handleAnkiModeToggle (handleAnkiModeToggle s)) = [] /\
    selectedImages (handleAnkiModeToggle (handleAnkiModeToggle s)) = [].
Proof.
  intros s. unfold handleAnkiModeToggle.
  destruct (ankiMode s) eqn:Hm; cbn; rewrite ?Hm; cbn;
    repeat split; intros; try discriminate; reflexivity.
Qed.

(** Leaving the mode with a phrase selected. *)
Lemma anki_mode_round_trip_witness :
  let s := setAnkiMode true (setSelectedPhrases [miCasa] shown) in
  ankiMode (handleAnkiModeToggle s) = false /\
  selectedPhrases (handleAnkiModeToggle s) = [] /\
  selectedImages (handleAnkiModeToggle s) = [].
Proof.
  apply (anki_mode_round_trip (setAnkiMode true (setSelectedPhrases [miCasa] shown))).
  reflexivity.
Defined.

(** Once the cards are created the selections are empty and the mode is
    left, so the create button does nothing until a phrase is selected
    again; with a phrase selected it opens the card creator. *)
Theorem create_needs_a_new_selection :
  forall (s : AppState),
    selectedPhrases (handleAnkiCardsCreated s) = [] /\
    selectedImages (handleAnkiCardsCreated s) = [] /\
    ankiMode (handleAnkiCardsCreated s) = false /\
    handleCreateAnkiCards (handleAnkiCardsCreated s) = handleAnkiCardsCreated s /\
    (selectedPhrases s <> [] ->
     showAnkiCardCreator (handleCreateAnkiCards s) = true).
Proof.
  intros s. repeat split.
  unfold handleCreateAnkiCards. destruct (selectedPhrases s); [congruence|].
  reflexivity.
Qed.

Lemma create_needs_a_new_selection_witness :
  showAnkiCardCreator
    (handleCreateAnkiCards (setSelectedPhrases [miCasa] shown)) = true.
Proof.
  apply (create_needs_a_new_selection (setSelectedPhrases [miCasa] shown)).
  discriminate.
Defined.

(** *** Sessions *)

Lemma consistent_search {E : Type} (api : ElectronAPI E) (word : string)
    (s : AppState) (e : E) :
  consistent s -> consistent (fst (fst (handleSearch api word s e))).
Proof.
  intros H. unfold handleSearch.
  destruct (negb (truthy_str (trim word))); [exact H|].
  destruct (addSearch api e word) as [e1 [[]|r]].
  - destruct (searchImages api e1 word _) as [e2 images].
    destruct (generatePhrases api e2 word) as [e3 phrases].
    destruct (generateExplanation api e3 word) as [e4 wordExplanation].
    unfold consistent. cbn. reflexivity.
  - unfold consistent. cbn. destruct (searchResult s); exact I.
Qed.

Lemma consistent_step (x : Session) (ev : Event) :
  consistent (ui x) -> consistent (ui (step x ev)).
Proof.
  intros H. destruct ev as [page | outcome | word answers]; cbn.
  - unfold handlePageChange_begin.
    destruct (negb (truthy_str (currentWord (ui x))) || isImagesLoading (ui x));
      exact H.
  - destruct (inflight x); [exact H|]. cbn.
    destruct outcome as [imageResult | reason]; [|exact H].
    unfold consistent. cbn. destruct (searchResult (ui x)); [reflexivity | exact I].
  - apply consistent_search, H.
Qed.

(** Through every session, searches included, the images of the merged
    result stay those of the paginated result. *)
Theorem images_stay_consistent :
  forall (evs : list Event) (x : Session),
    consistent (ui x) -> consistent (ui (run evs x)).
Proof.
  induction evs as [|ev evs IH]; intros x H; [exact H|].
  cbn [run fold_left]. apply IH, consistent_step, H.
Qed.

(** The session in which a search finished while a page was loading. *)
Lemma images_stay_consistent_witness :
  consistent
    (ui (run [PageChange 2; Search "perro" perroFound; PageChange 3;
              ImagesSettled (Fulfilled (pageOf 2 ["c.jpg"]))]
           {| ui := initial; inflight := []; issued := [] |})).
Proof.
  apply (images_stay_consistent
           [PageChange 2; Search "perro" perroFound; PageChange 3;
            ImagesSettled (Fulfilled (pageOf 2 ["c.jpg"]))]
           {| ui := initial; inflight := []; issued := [] |}).
  exact I.
Defined.

(** Before the first search there is no current word, and page changes do
    nothing: no lookup is issued and the session stays as it is. *)
Theorem no_page_change_before_a_search :
  forall (evs : list Event) (x : Session),
    currentWord (ui x) = "" ->
    inflight x = [] ->
    forallb (fun ev => negb (isSearch ev)) evs = true ->
    run evs x = x.
Proof.
  induction evs as [|ev evs IH]; intros x Hw Hi Hevs; [reflexivity|].
  cbn [forallb] in Hevs. apply andb_prop in Hevs as [Hev Hevs].
  cbn [run fold_left].
  assert (Hstep : step x ev = x).
  { destruct ev as [page | outcome | word answers]; [| |discriminate Hev]; cbn.
    - unfold handlePageChange_begin. rewrite Hw. reflexivity.
    - rewrite Hi. reflexivity. }
  rewrite Hstep. apply IH; assumption.
Qed.

Lemma no_page_change_before_a_search_witness :
  run [PageChange 2; ImagesSettled (Rejected "offline"); PageChange 1]
    {| ui := initial; inflight := []; issued := [] |}
  = {| ui := initial; inflight := []; issued := [] |}.
Proof.
  apply (no_page_change_before_a_search
           [PageChange 2; ImagesSettled (Rejected "offline"); PageChange 1]
           {| ui := initial; inflight := []; issued := [] |});
    reflexivity.
Defined.

(** Every image lookup a page change issues asks for six images of a word
    that is not empty. *)
Theorem page_lookups_are_well_formed :
  forall (evs : list Event) (x : Session),
    Forall (fun call => perPage (snd call) = 6 /\ fst call <> "") (issued x) ->
    Forall (fun call => perPage (snd call) = 6 /\ fst call <> "")
           (issued (run evs x)).
Proof.
  induction evs as [|ev evs IH]; intros x H; [exact H|].
  cbn [run fold_left]. apply IH.
  destruct ev as [page | outcome | word answers]; cbn.
  - unfold handlePageChange_begin.
    destruct (currentWord (ui x)) as [|c w] eqn:Hw; cbn; [exact H|].
    destruct (isImagesLoading (ui x)); cbn; [exact H|].
    apply Forall_app. split; [exact H|].
    constructor; [|constructor]. cbn. split; [reflexivity | discriminate].
  - destruct (inflight x); exact H.
  - exact H.
Qed.

Lemma page_lookups_are_well_formed_witness :
  Forall (fun call => perPage (snd call) = 6 /\ fst call <> "")
         (issued (run [PageChange 2; Search "perro" perroFound; PageChange 3]
                    {| ui := shown; inflight := []; issued := [] |})).
Proof.
  apply (page_lookups_are_well_formed
           [PageChange 2; Search "perro" perroFound; PageChange 3]
           {| ui := shown; inflight := []; issued := [] |}).
  constructor.
Defined.

(** A page change that is taken and then settles, fulfilled or rejected,
    leaves nothing pending and the in-flight flag down, so that the next
    page change is taken again. *)
Theorem page_change_settles :
  forall (x : Session) (page next : Z)
         (outcome : Settled PaginatedImageResult.t),
    quiet x ->
    currentWord (ui x) <> "" ->
    let y := run [PageChange page; ImagesSettled outcome] x in
    quiet y /\
    issued y = (issued x ++ [(currentWord (ui x), {| Shared.page := page; perPage := 6 |})])%list /\
    inflight (step y (PageChange next)) =
      [(currentWord (ui x), {| Shared.page := next; perPage := 6 |})].
Proof.
  intros x page next outcome [Hi Hl] Hw. cbn.
  unfold handlePageChange_begin. rewrite Hl, Hi.
  destruct (currentWord (ui x)) as [|c w] eqn:Ew; [congruence|].
  cbn. destruct outcome; cbn; rewrite ?Ew; cbn; repeat split.
Qed.

Lemma page_change_settles_witness :
  let x := {| ui := shown; inflight := []; issued := [] |} in
  let y := run [PageChange 2; ImagesSettled (Rejected "offline")] x in
  quiet y /\
  issued y = (issued x ++ [(currentWord (ui x), {| Shared.page := 2; perPage := 6 |})])%list /\
  inflight (step y (PageChange 3)) =
    [(currentWord (ui x), {| Shared.page := 3; perPage := 6 |})].
Proof.
  apply (page_change_settles {| ui := shown; inflight := []; issued := [] |}
           2 3 (Rejected "offline")).
  - split; reflexivity.
  - discriminate.
Defined.

(** In a session without searches that starts with nothing pending, at
    most one image lookup is pending at any time; while one is, the
    in-flight flag is up and a further page change is dropped, and however
    many are requested before the lookup settles, the session ends as if
    only the first had been. *)
Theorem guard_holds_between_searches :
  forall (x0 : Session) (evs : list Event) (page : Z) (pages : list Z)
         (outcome : Settled PaginatedImageResult.t),
    quiet x0 ->
    forallb (fun ev => negb (isSearch ev)) evs = true ->
    let x := run evs x0 in
    (length (inflight x) <= 1)%nat /\
    (inflight x <> [] ->
     isImagesLoading (ui x) = true /\ step x (PageChange page) = x) /\
    run (PageChange page :: map PageChange pages ++ [ImagesSettled outcome]) x
      = run [PageChange page; ImagesSettled outcome] x.
Proof.
  intros x0 evs page pages outcome Hq Hevs x.
  destruct (SearchSession.page_change_is_guarded unit (scripted allGood) tt
              x0 evs page pages outcome "" emptyImages Hq Hevs)
    as (Hone & Hflag & Hdrop & Hrun & _).
  split; [exact Hone|]. split; [|exact Hrun].
  intros Hi. split; [exact (Hflag Hi)|].
  apply Hdrop. left. exact Hi.
Qed.

(** While page 2 of casa is loading, clicks on pages 3 and 1 are dropped. *)
Lemma guard_holds_between_searches_witness :
  let x := run [PageChange 2] {| ui := shown; inflight := []; issued := [] |} in
  (length (inflight x) <= 1)%nat /\
  (inflight x <> [] ->
   isImagesLoading (ui x) = true /\ step x (PageChange 3) = x) /\
  run (PageChange 3 :: map PageChange [1] ++ [ImagesSettled (Rejected "offline")]) x
    = run [PageChange 3; ImagesSettled (Rejected "offline")] x.
Proof.
  apply (guard_holds_between_searches
           {| ui := shown; inflight := []; issued := [] |} [PageChange 2]
           3 [1] (Rejected "offline")).
  - split; reflexivity.
  - reflexivity.
Defined.

(** *** Paste and search *)




End Component.
